(** * pc.Matrix4: a shallow embedding of src/core/core_matrix4.js

    The module under study is the 4x4 matrix class of the engine.  A matrix
    object owns one [Float32Array(16)], its [data], laid out column-major:
    the element of row [r] and column [c] lives at index [r + c*4].

    Modelling choices.
    - Numbers.  Entries are modelled as real numbers ([R]); rounding to
      single precision, infinities and NaN are outside the model.  All
      statements below are therefore statements about the exact arithmetic
      the formulas of the source denote.
    - Objects.  Every method mutates typed arrays that several references may
      share ([Matrix4.mul (this, rhs, this)] is how the instance method calls
      the static one), so typed arrays live in a store indexed by locations
      and the functions are written in a state-and-exception monad.  Since a
      matrix never rebinds its [data] field, a matrix reference is identified
      with the location of its typed array; likewise for 3-vectors.
    - Identifiers.  A function body sees its parameters and [var]s, then the
      bindings of the enclosing module closure (there is exactly one,
      [Matrix4]), then the global object, where the engine installs the single
      namespace object [pc] beside the ECMAScript built-ins.  Reading any
      other identifier raises a ReferenceError, as the language prescribes. *)

From Stdlib Require Import Reals Lra String List RNsatz.
From stdpp Require Import base option list gmap.

Open Scope R_scope.

(** ** The execution monad *)

Module JS.

Definition loc := positive.

Inductive error : Type :=
| ReferenceError (ident : string)
| TypeError (msg : string)
| RangeError (msg : string)
| UndefinedOperand.
(* [UndefinedOperand]: a typed array was read past its end; the read yields
   [undefined], which the numeric model does not represent. *)

Inductive value : Type :=
| VUndefined
| VBool (b : bool)
| VNumber (x : R)
| VObject (l : loc).

Record state : Type := State {
  store : gmap loc (list R);
  console : list string
}.

Inductive outcome (A : Type) : Type :=
| Normal (a : A) (s : state)
| Throw (e : error) (s : state).
Arguments Normal {A} a s.
Arguments Throw {A} e s.

Definition M (A : Type) : Type := state -> outcome A.

Definition ret {A} (a : A) : M A := fun s => Normal a s.

Definition bind {A B} (m : M A) (k : A -> M B) : M B :=
  fun s => match m s with
           | Normal a s' => k a s'
           | Throw e s' => Throw e s'
           end.

Definition throw {A} (e : error) : M A := fun s => Throw e s.

(** Reading an identifier that no enclosing scope binds. *)
Definition unbound {A} (ident : string) : M A := throw (ReferenceError ident).

(** [console.warn(msg)] *)
Definition console_warn (msg : string) : M unit :=
  fun s => Normal tt {| store := store s; console := console s ++ [msg] |}.

(** [new Float32Array(n)]: a fresh, zero-filled typed array. *)
Definition new_Float32Array (n : nat) : M loc :=
  fun s => let l := fresh (dom (store s)) in
           Normal l {| store := <[l := replicate n 0]> (store s);
                       console := console s |}.

(** [a[i]] for a typed array [a]. *)
Definition read (a : loc) (i : nat) : M R :=
  fun s => match store s !! a with
           | None => Throw (TypeError "not an object") s
           | Some arr => match arr !! i with
                         | Some x => Normal x s
                         | None => Throw UndefinedOperand s
                         end
           end.

(** [a[i] = x] for a typed array [a]; a typed array never grows, an index
    past its end is ignored. *)
Definition write (a : loc) (i : nat) (x : R) : M unit :=
  fun s => match store s !! a with
           | None => Throw (TypeError "not an object") s
           | Some arr => Normal tt {| store := <[a := <[i := x]> arr]> (store s);
                                      console := console s |}
           end.

(** [a.set(src)] for a typed array [a] and an array-like [src] of numbers:
    copies [src] to the front of [a], and throws when [src] is longer. *)
Definition typed_set (a : loc) (src : list R) : M unit :=
  fun s => match store s !! a with
           | None => Throw (TypeError "not an object") s
           | Some arr =>
               if (length arr <? length src)%nat
               then Throw (RangeError "offset is out of bounds") s
               else Normal tt {| store := <[a := src ++ drop (length src) arr]> (store s);
                                 console := console s |}
           end.

End JS.

Import JS.

Declare Scope js_scope.
Delimit Scope js_scope with js.
Notation "'var' x '<-' e ';' k" := (bind e (fun x => k))
  (at level 10, x name, e at level 100, k at level 200) : js_scope.
Notation "e ';;' k" := (bind e (fun _ => k))
  (at level 100, k at level 200, right associativity) : js_scope.

(** Expressions: operands are evaluated left to right. *)
Definition lift2 {A B C} (f : A -> B -> C) (e1 : M A) (e2 : M B) : M C :=
  bind e1 (fun x => bind e2 (fun y => ret (f x y))).
Definition lift1 {A B} (f : A -> B) (e : M A) : M B :=
  bind e (fun x => ret (f x)).

(** [a === b] on numbers. *)
Definition strict_eq (a b : R) : bool := if Req_dec_T a b then true else false.

(** [e1 && e2] on booleans: [e2] is evaluated only when [e1] is true. *)
Definition and_also (e1 e2 : M bool) : M bool :=
  bind e1 (fun b => if b then e2 else ret false).

Notation "a '.[' i ']'" := (read a i) (at level 1, i at level 200, format "a .[ i ]") : js_scope.
Notation "a '.[' i ']' '<~' e" := (bind e (fun x => write a i x))
  (at level 1, i at level 200, e at level 89, format "a .[ i ]  <~  e") : js_scope.
Notation "e1 '+!' e2" := (lift2 Rplus e1 e2) (at level 50, left associativity) : js_scope.
Notation "e1 '-!' e2" := (lift2 Rminus e1 e2) (at level 50, left associativity) : js_scope.
Notation "e1 '*!' e2" := (lift2 Rmult e1 e2) (at level 40, left associativity) : js_scope.
Notation "e1 '/!' e2" := (lift2 Rdiv e1 e2) (at level 40, left associativity) : js_scope.
Notation "'-!' e" := (lift1 Ropp e) (at level 35, right associativity) : js_scope.
Notation "e1 '===!' e2" := (lift2 strict_eq e1 e2) (at level 70, no associativity) : js_scope.
Notation "e1 '&&!' e2" := (and_also e1 e2) (at level 80, right associativity) : js_scope.
Notation "'#' x" := (ret x) (at level 2, x at level 1, format "# x") : js_scope.
Open Scope js_scope.

(** ** The 3-vector collaborator *)

Module Vector3.

(** Modelled from the spec: the 3-component vector type [pc.Vector3] is an
    external collaborator that the repository's source does not contain
    ("fields x,y,z; operations: subtract, normalize, cross, length,
    indexable access").  Its three numbers sit in a typed array of length
    three in the store, which is what both [vec.data[i]] and [vec[i]]
    address; the operations below are the standard ones on the values. *)
Record vec3 : Type := mk { x : R; y : R; z : R }.

(** Modelled from the spec: indexable access, [v[i]] for [i] in 0..2. *)
Definition index (v : vec3) (i : nat) : R :=
  match i with
  | O => x v
  | 1%nat => y v
  | _ => z v
  end.

(** Modelled from the spec: [subtract], the componentwise difference. *)
Definition subtract (a b : vec3) : vec3 :=
  mk (x a - x b) (y a - y b) (z a - z b).

(** Modelled from the spec: [length], the Euclidean norm. *)
Definition length (v : vec3) : R :=
  sqrt (x v * x v + y v * y v + z v * z v).

(** Modelled from the spec: [normalize], the vector divided by its length. *)
Definition normalize (v : vec3) : vec3 :=
  mk (x v / length v) (y v / length v) (z v / length v).

(** Modelled from the spec: [cross], the right-handed cross product. *)
Definition cross (a b : vec3) : vec3 :=
  mk (y a * z b - z a * y b) (z a * x b - x a * z b) (x a * y b - y a * x b).

(** Modelled from the spec: the value of the vector object at location [v],
    as the vector's own methods read it. *)
Definition load (v : loc) : M vec3 :=
  var v0 <- v.[0]; var v1 <- v.[1]; var v2 <- v.[2]; ret (mk v0 v1 v2).

(** Modelled from the spec: [new pc.Vector3()], a new zero vector. *)
Definition new : M loc := new_Float32Array 3.

End Vector3.

(** ** The quaternion collaborator *)

Module Quaternion.

(** Modelled from the spec: the quaternion type [pc.Quaternion] is an external
    collaborator ("fields x,y,z,w") that the repository's source does not
    contain; its four numbers sit, in that order, in a typed array of length
    four in the store.  [q.x]. *)
Definition x (q : loc) : M R := q.[0].

(** Modelled from the spec: [q.y]. *)
Definition y (q : loc) : M R := q.[1].

(** Modelled from the spec: [q.z]. *)
Definition z (q : loc) : M R := q.[2].

(** Modelled from the spec: [q.w]. *)
Definition w (q : loc) : M R := q.[3].

End Quaternion.

(** ** Built-ins and engine constants used by the Euler conversion *)

(** [Math.atan2(y, x)], the angle of the point [(x, y)]. *)
Definition Math_atan2 (y x : R) : R :=
  if Rlt_dec 0 x then atan (y / x)
  else if Rlt_dec x 0 then (if Rle_dec 0 y then atan (y / x) + PI else atan (y / x) - PI)
  else if Rlt_dec 0 y then PI / 2
  else if Rlt_dec y 0 then - (PI / 2)
  else 0.

(** Modelled from the spec: [pc.math.RAD_TO_DEG] is defined outside this
    module; it is the factor that turns radians into degrees. *)
Definition RAD_TO_DEG : R := 180 / PI.

(** ** pc.Matrix4 *)

Module Matrix4.

(** Modelled from the spec: [pc.Matrix], the constructor the static
    operations call when the caller passes no output, is not defined in this
    module; the spec says a new instance is used.  Its initial entries do
    not matter, the callers overwrite all sixteen. *)
Definition new_pc_Matrix : M loc := new_Float32Array 16.

(** [Matrix4.add = function (lhs, rhs, res)] *)
Definition add (lhs rhs : loc) (res : option loc) : M loc :=
  var res <- match res with
             | None => new_pc_Matrix
             | Some res => ret res
             end;
  let a := lhs in
  let b := rhs in
  let r := res in

  r.[0] <~ a.[0] +! b.[0] ;;
  r.[1] <~ a.[1] +! b.[1] ;;
  r.[2] <~ a.[2] +! b.[2] ;;
  r.[3] <~ a.[3] +! b.[3] ;;
  r.[4] <~ a.[4] +! b.[4] ;;
  r.[5] <~ a.[5] +! b.[5] ;;
  r.[6] <~ a.[6] +! b.[6] ;;
  r.[7] <~ a.[7] +! b.[7] ;;
  r.[8] <~ a.[8] +! b.[8] ;;
  r.[9] <~ a.[9] +! b.[9] ;;
  r.[10] <~ a.[10] +! b.[10] ;;
  r.[11] <~ a.[11] +! b.[11] ;;
  r.[12] <~ a.[12] +! b.[12] ;;
  r.[13] <~ a.[13] +! b.[13] ;;
  r.[14] <~ a.[14] +! b.[14] ;;
  r.[15] <~ a.[15] +! b.[15] ;;

  ret res.

(** [Matrix4.mul = function (lhs, rhs, res)] *)
Definition mul (lhs rhs : loc) (res : option loc) : M loc :=
  var res <- match res with
             | None => new_pc_Matrix
             | Some res => ret res
             end;
  let a := lhs in
  let b := rhs in
  let r := res in
  var a00 <- a.[0];
  var a01 <- a.[1];
  var a02 <- a.[2];
  var a03 <- a.[3];
  var a10 <- a.[4];
  var a11 <- a.[5];
  var a12 <- a.[6];
  var a13 <- a.[7];
  var a20 <- a.[8];
  var a21 <- a.[9];
  var a22 <- a.[10];
  var a23 <- a.[11];
  var a30 <- a.[12];
  var a31 <- a.[13];
  var a32 <- a.[14];
  var a33 <- a.[15];

  var b0 <- b.[0];
  var b1 <- b.[1];
  var b2 <- b.[2];
  var b3 <- b.[3];
  r.[0] <~ #(a00 * b0 + a10 * b1 + a20 * b2 + a30 * b3) ;;
  r.[1] <~ #(a01 * b0 + a11 * b1 + a21 * b2 + a31 * b3) ;;
  r.[2] <~ #(a02 * b0 + a12 * b1 + a22 * b2 + a32 * b3) ;;
  r.[3] <~ #(a03 * b0 + a13 * b1 + a23 * b2 + a33 * b3) ;;

  var b0 <- b.[4];
  var b1 <- b.[5];
  var b2 <- b.[6];
  var b3 <- b.[7];
  r.[4] <~ #(a00 * b0 + a10 * b1 + a20 * b2 + a30 * b3) ;;
  r.[5] <~ #(a01 * b0 + a11 * b1 + a21 * b2 + a31 * b3) ;;
  r.[6] <~ #(a02 * b0 + a12 * b1 + a22 * b2 + a32 * b3) ;;
  r.[7] <~ #(a03 * b0 + a13 * b1 + a23 * b2 + a33 * b3) ;;

  var b0 <- b.[8];
  var b1 <- b.[9];
  var b2 <- b.[10];
  var b3 <- b.[11];
  r.[8] <~ #(a00 * b0 + a10 * b1 + a20 * b2 + a30 * b3) ;;
  r.[9] <~ #(a01 * b0 + a11 * b1 + a21 * b2 + a31 * b3) ;;
  r.[10] <~ #(a02 * b0 + a12 * b1 + a22 * b2 + a32 * b3) ;;
  r.[11] <~ #(a03 * b0 + a13 * b1 + a23 * b2 + a33 * b3) ;;

  var b0 <- b.[12];
  var b1 <- b.[13];
  var b2 <- b.[14];
  var b3 <- b.[15];
  r.[12] <~ #(a00 * b0 + a10 * b1 + a20 * b2 + a30 * b3) ;;
  r.[13] <~ #(a01 * b0 + a11 * b1 + a21 * b2 + a31 * b3) ;;
  r.[14] <~ #(a02 * b0 + a12 * b1 + a22 * b2 + a32 * b3) ;;
  r.[15] <~ #(a03 * b0 + a13 * b1 + a23 * b2 + a33 * b3) ;;

  ret res.

(** [Matrix4.mulVec3 = function (mtx, vec, w, res)] *)
Definition mulVec3 (mtx vec : loc) (w : R) (res : option loc) : M loc :=
  var res <- match res with
             | None => Vector3.new
             | Some res => ret res
             end;
  let m := mtx in
  let v := vec in
  let r := res in
  var x <-
    v.[0] *! m.[0] +!
    v.[1] *! m.[4] +!
    v.[2] *! m.[8] +!
    #w *! m.[12];
  var y <-
    v.[0] *! m.[1] +!
    v.[1] *! m.[5] +!
    v.[2] *! m.[9] +!
    #w *! m.[13];
  var z <-
    v.[0] *! m.[2] +!
    v.[1] *! m.[6] +!
    v.[2] *! m.[10] +!
    #w *! m.[14];
  r.[0] <~ #x ;;
  r.[1] <~ #y ;;
  r.[2] <~ #z ;;

  ret res.

Module prototype.

(** [Matrix4.prototype.setIdentity = function ()] *)
Definition setIdentity (this : loc) : M loc :=
  let m := this in
  m.[0] <~ #1 ;;
  m.[1] <~ #0 ;;
  m.[2] <~ #0 ;;
  m.[3] <~ #0 ;;
  m.[4] <~ #0 ;;
  m.[5] <~ #1 ;;
  m.[6] <~ #0 ;;
  m.[7] <~ #0 ;;
  m.[8] <~ #0 ;;
  m.[9] <~ #0 ;;
  m.[10] <~ #1 ;;
  m.[11] <~ #0 ;;
  m.[12] <~ #0 ;;
  m.[13] <~ #0 ;;
  m.[14] <~ #0 ;;
  m.[15] <~ #1 ;;

  ret this.

(** [var Matrix4 = function ()], called with [new]; [arguments] is the
    list of the actual arguments, whatever their number. *)
Definition constructor (arguments : list R) : M loc :=
  var data <- new_Float32Array 16;
  let this := data in
  (if (List.length arguments =? 16)%nat
   then typed_set data arguments
   else (setIdentity this ;; ret tt)) ;;
  ret this.

(** [Matrix4.prototype.copy = function (rhs)] *)
Definition copy (this rhs : loc) : M loc :=
  let src := rhs in
  let dst := this in
  dst.[0] <~ src.[0] ;;
  dst.[1] <~ src.[1] ;;
  dst.[2] <~ src.[2] ;;
  dst.[3] <~ src.[3] ;;
  dst.[4] <~ src.[4] ;;
  dst.[5] <~ src.[5] ;;
  dst.[6] <~ src.[6] ;;
  dst.[7] <~ src.[7] ;;
  dst.[8] <~ src.[8] ;;
  dst.[9] <~ src.[9] ;;
  dst.[10] <~ src.[10] ;;
  dst.[11] <~ src.[11] ;;
  dst.[12] <~ src.[12] ;;
  dst.[13] <~ src.[13] ;;
  dst.[14] <~ src.[14] ;;
  dst.[15] <~ src.[15] ;;

  ret this.

(** [Matrix4.prototype.clone = function ()]: [new pc.Matrix4().copy(this)];
    [pc.Matrix4] is the constructor this module exports. *)
Definition clone (this : loc) : M loc :=
  var dst <- constructor [];
  copy dst this.

(** The parenthesised conjunction written under the [return] of [equals]. *)
Definition equals_comparison (l r : loc) : M bool :=
  (l.[0] ===! r.[0]) &&!
  (l.[1] ===! r.[1]) &&!
  (l.[2] ===! r.[2]) &&!
  (l.[3] ===! r.[3]) &&!
  (l.[4] ===! r.[4]) &&!
  (l.[5] ===! r.[5]) &&!
  (l.[6] ===! r.[6]) &&!
  (l.[7] ===! r.[7]) &&!
  (l.[8] ===! r.[8]) &&!
  (l.[9] ===! r.[9]) &&!
  (l.[10] ===! r.[10]) &&!
  (l.[11] ===! r.[11]) &&!
  (l.[12] ===! r.[12]) &&!
  (l.[13] ===! r.[13]) &&!
  (l.[14] ===! r.[14]) &&!
  (l.[15] ===! r.[15]).

(** [return] followed by a line terminator: the statement ends at the line
    break (automatic semicolon insertion), the function returns
    [undefined], and the statement written on the following lines is never
    reached. *)
Definition return_newline {A} (never_reached : M A) : M value :=
  ret VUndefined.

(** [Matrix4.prototype.equals = function (rhs)] *)
Definition equals (this rhs : loc) : M value :=
  let l := this in
  let r := rhs in
  return_newline
    (equals_comparison l r).

(** [Matrix4.prototype.mul = function (rhs)] *)
Definition mul (this rhs : loc) : M loc :=
  Matrix4.mul this rhs (Some this) ;;
  ret this.

(** [Matrix4.prototype.lookAt]: the function the closure returns.  The
    closure's scratch vectors [x], [y], [z] (made by [pc.Vector3()], a call
    into the collaborator) are private to it and every call overwrites them
    before reading them, so they are local values here; [x[i]] and
    [position[i]] are the collaborator's indexable access. *)
Definition lookAt (this position target up : loc) : M loc :=
  var p <- Vector3.load position;
  var t <- Vector3.load target;
  let z := Vector3.normalize (Vector3.subtract p t) in
  var u <- Vector3.load up;
  let y := Vector3.normalize u in
  let x := Vector3.normalize (Vector3.cross y z) in
  let y := Vector3.cross z x in

  let r := this in

  r.[0] <~ #(Vector3.index x 0) ;;
  r.[1] <~ #(Vector3.index x 1) ;;
  r.[2] <~ #(Vector3.index x 2) ;;
  r.[3] <~ #0 ;;
  r.[4] <~ #(Vector3.index y 0) ;;
  r.[5] <~ #(Vector3.index y 1) ;;
  r.[6] <~ #(Vector3.index y 2) ;;
  r.[7] <~ #0 ;;
  r.[8] <~ #(Vector3.index z 0) ;;
  r.[9] <~ #(Vector3.index z 1) ;;
  r.[10] <~ #(Vector3.index z 2) ;;
  r.[11] <~ #0 ;;
  r.[12] <~ position.[0] ;;
  r.[13] <~ position.[1] ;;
  r.[14] <~ position.[2] ;;
  r.[15] <~ #1 ;;

  ret this.

(** [Matrix4.prototype.invert = function ()] *)
Definition invert (this : loc) : M loc :=
  let m := this in

  var a00 <- m.[0]; var a01 <- m.[1]; var a02 <- m.[2]; var a03 <- m.[3];
  var a10 <- m.[4]; var a11 <- m.[5]; var a12 <- m.[6]; var a13 <- m.[7];
  var a20 <- m.[8]; var a21 <- m.[9]; var a22 <- m.[10]; var a23 <- m.[11];
  var a30 <- m.[12]; var a31 <- m.[13]; var a32 <- m.[14]; var a33 <- m.[15];

  let b00 := a00*a11 - a01*a10 in
  let b01 := a00*a12 - a02*a10 in
  let b02 := a00*a13 - a03*a10 in
  let b03 := a01*a12 - a02*a11 in
  let b04 := a01*a13 - a03*a11 in
  let b05 := a02*a13 - a03*a12 in
  let b06 := a20*a31 - a21*a30 in
  let b07 := a20*a32 - a22*a30 in
  let b08 := a20*a33 - a23*a30 in
  let b09 := a21*a32 - a22*a31 in
  let b10 := a21*a33 - a23*a31 in
  let b11 := a22*a33 - a23*a32 in

  let invDet := 1/(b00*b11 - b01*b10 + b02*b09 + b03*b08 - b04*b07 + b05*b06) in

  m.[0] <~ #((a11*b11 - a12*b10 + a13*b09)*invDet) ;;
  m.[1] <~ #((-a01*b11 + a02*b10 - a03*b09)*invDet) ;;
  m.[2] <~ #((a31*b05 - a32*b04 + a33*b03)*invDet) ;;
  m.[3] <~ #((-a21*b05 + a22*b04 - a23*b03)*invDet) ;;
  m.[4] <~ #((-a10*b11 + a12*b08 - a13*b07)*invDet) ;;
  m.[5] <~ #((a00*b11 - a02*b08 + a03*b07)*invDet) ;;
  m.[6] <~ #((-a30*b05 + a32*b02 - a33*b01)*invDet) ;;
  m.[7] <~ #((a20*b05 - a22*b02 + a23*b01)*invDet) ;;
  m.[8] <~ #((a10*b10 - a11*b08 + a13*b06)*invDet) ;;
  m.[9] <~ #((-a00*b10 + a01*b08 - a03*b06)*invDet) ;;
  m.[10] <~ #((a30*b04 - a31*b02 + a33*b00)*invDet) ;;
  m.[11] <~ #((-a20*b04 + a21*b02 - a23*b00)*invDet) ;;
  m.[12] <~ #((-a10*b09 + a11*b07 - a12*b06)*invDet) ;;
  m.[13] <~ #((a00*b09 - a01*b07 + a02*b06)*invDet) ;;
  m.[14] <~ #((-a30*b03 + a31*b01 - a32*b00)*invDet) ;;
  m.[15] <~ #((a20*b03 - a21*b01 + a22*b00)*invDet) ;;

  ret this.

(** [Matrix4.prototype.transpose = function ()].  The body declares
    [tmp] only; [m] is a free identifier, looked up where the first
    statement reads it. *)
Definition transpose (this : loc) : M loc :=
  let tmp := 0 in
  var m <- unbound "m";
  var tmp <- m.[1]; m.[1] <~ m.[4] ;; m.[4] <~ #tmp ;;
  var tmp <- m.[2]; m.[2] <~ m.[8] ;; m.[8] <~ #tmp ;;
  var tmp <- m.[3]; m.[3] <~ m.[12] ;; m.[12] <~ #tmp ;;
  var tmp <- m.[6]; m.[6] <~ m.[9] ;; m.[9] <~ #tmp ;;
  var tmp <- m.[7]; m.[7] <~ m.[13] ;; m.[13] <~ #tmp ;;
  var tmp <- m.[11]; m.[11] <~ m.[14] ;; m.[14] <~ #tmp ;;

  ret this.

(** [Matrix4.prototype.invertTo3x3 = function ()].  The body declares
    [m] and the cofactors; [r] is a free identifier, looked up by
    [return r] on the singular path and by the first assignment on the
    other. *)
Definition invertTo3x3 (this : loc) : M loc :=
  let m := this in

  var a11 <- m.[10] *! m.[5] -! m.[6] *! m.[9];
  var a21 <- -! m.[10] *! m.[1] +! m.[2] *! m.[9];
  var a31 <- m.[6] *! m.[1] -! m.[2] *! m.[5];
  var a12 <- -! m.[10] *! m.[4] +! m.[6] *! m.[8];
  var a22 <- m.[10] *! m.[0] -! m.[2] *! m.[8];
  var a32 <- -! m.[6] *! m.[0] +! m.[2] *! m.[4];
  var a13 <- m.[9] *! m.[4] -! m.[5] *! m.[8];
  var a23 <- -! m.[9] *! m.[0] +! m.[1] *! m.[8];
  var a33 <- m.[5] *! m.[0] -! m.[1] *! m.[4];

  var det <- m.[0] *! #a11 +! m.[1] *! #a12 +! m.[2] *! #a13;
  if Req_dec_T det 0 then
    console_warn "pc.Matrix4#invertTo3x3: Matrix not invertible" ;;
    var r <- unbound "r";
    ret r
  else
    let idet := 1 / det in

    var r <- unbound "r";
    r.[0] <~ #(idet * a11) ;;
    r.[1] <~ #(idet * a21) ;;
    r.[2] <~ #(idet * a31) ;;
    r.[3] <~ #(idet * a12) ;;
    r.[4] <~ #(idet * a22) ;;
    r.[5] <~ #(idet * a32) ;;
    r.[6] <~ #(idet * a13) ;;
    r.[7] <~ #(idet * a23) ;;
    r.[8] <~ #(idet * a33) ;;

    ret this.

(** [new Vector3()]: inside this module the bare identifier [Vector3] is
    free (the vector class is reachable as [pc.Vector3] only). *)
Definition new_Vector3 : M loc := unbound "Vector3".

(** [Matrix4.prototype.getX = function (x)] *)
Definition getX (this : loc) (x : option loc) : M loc :=
  var x <- match x with
           | None => new_Vector3
           | Some x => ret x
           end;
  x.[0] <~ this.[0] ;;
  x.[1] <~ this.[1] ;;
  x.[2] <~ this.[2] ;;

  ret x.

(** [Matrix4.prototype.getY = function (y)] *)
Definition getY (this : loc) (y : option loc) : M loc :=
  var y <- match y with
           | None => new_Vector3
           | Some y => ret y
           end;
  y.[0] <~ this.[4] ;;
  y.[1] <~ this.[5] ;;
  y.[2] <~ this.[6] ;;

  ret y.

(** [Matrix4.prototype.getZ = function (z)] *)
Definition getZ (this : loc) (z : option loc) : M loc :=
  var z <- match z with
           | None => new_Vector3
           | Some z => ret z
           end;
  z.[0] <~ this.[8] ;;
  z.[1] <~ this.[9] ;;
  z.[2] <~ this.[10] ;;

  ret z.

(** The scratch vectors of the closure around [getScale]: three
    [new Vector3()], evaluated when the closure is built. *)
Definition getScale_scratch : M (loc * loc * loc) :=
  var x <- new_Vector3;
  var y <- new_Vector3;
  var z <- new_Vector3;
  ret (x, y, z).

(** [Matrix4.prototype.getScale]: the closure and the function it
    returns. *)
Definition getScale (this : loc) (scale : option loc) : M loc :=
  var xyz <- getScale_scratch;
  let '(x, y, z) := xyz in
  var scale <- match scale with
               | None => new_Vector3
               | Some scale => ret scale
               end;
  getX this (Some x) ;;
  getY this (Some y) ;;
  getZ this (Some z) ;;
  scale.[0] <~ lift1 Vector3.length (Vector3.load x) ;;
  scale.[1] <~ lift1 Vector3.length (Vector3.load y) ;;
  scale.[2] <~ lift1 Vector3.length (Vector3.load z) ;;

  ret scale.

(** [Matrix4.prototype.setFromEulerXYZ = function (ex, ey, ez)].  The
    parameters are [ex], [ey], [ez]; the body reads [x], [y], [z], which
    are free identifiers. *)
Definition setFromEulerXYZ (this : loc) (ex ey ez : R) : M loc :=
  var s1 <- lift1 (fun x => sin (- x)) (unbound "x");
  var c1 <- lift1 (fun x => cos (- x)) (unbound "x");
  var s2 <- lift1 (fun y => sin (- y)) (unbound "y");
  var c2 <- lift1 (fun y => cos (- y)) (unbound "y");
  var s3 <- lift1 (fun z => sin (- z)) (unbound "z");
  var c3 <- lift1 (fun z => cos (- z)) (unbound "z");

  let m := this in

  m.[0] <~ #(c2*c3) ;;
  m.[1] <~ #(-c2*s3) ;;
  m.[2] <~ #s2 ;;
  m.[3] <~ #0 ;;

  m.[4] <~ #(c1*s3 + c3*s1*s2) ;;
  m.[5] <~ #(c1*c3 - s1*s2*s3) ;;
  m.[6] <~ #(-c2*s1) ;;
  m.[7] <~ #0 ;;

  m.[8] <~ #(s1*s3 - c1*c3*s2) ;;
  m.[9] <~ #(c3*s1 + c1*s2*s3) ;;
  m.[10] <~ #(c1*c2) ;;
  m.[11] <~ #0 ;;

  m.[12] <~ #0 ;;
  m.[13] <~ #0 ;;
  m.[14] <~ #0 ;;
  m.[15] <~ #1 ;;

  ret this.

(** [Matrix4.prototype.toEulerXYZ = function ()].  The body declares
    [scale], [x], [y], [z] and [HALF_PI]; [m] and [r] are free
    identifiers. *)
Definition toEulerXYZ (this : loc) : M loc :=
  var scale <- getScale this None;

  var m <- unbound "m";
  var y <- lift1 asin (-! m.[2] /! scale.[0]);
  let HALF_PI := PI / 2 in
  var xz <-
    (if Rlt_dec y HALF_PI then
       if Rgt_dec y (- HALF_PI) then
         var x <- lift2 Math_atan2 (m.[6] /! scale.[1]) (m.[10] /! scale.[2]);
         var z <- lift2 Math_atan2 (m.[1] /! scale.[0]) (m.[0] /! scale.[0]);
         ret (x, z)
       else
         let z := 0 in
         var x <- -! lift2 Math_atan2 (m.[4] /! scale.[1]) (m.[5] /! scale.[1]);
         ret (x, z)
     else
       let z := 0 in
       var x <- lift2 Math_atan2 (m.[4] /! scale.[1]) (m.[5] /! scale.[1]);
       ret (x, z));
  let x := fst xz in
  let z := snd xz in

  var r <- unbound "r";
  r.[0] <~ #(x * RAD_TO_DEG) ;;
  r.[1] <~ #(y * RAD_TO_DEG) ;;
  r.[2] <~ #(z * RAD_TO_DEG) ;;

  ret r.

(** [Matrix4.prototype.add = function (rhs)] *)
Definition add (this rhs : loc) : M loc :=
  Matrix4.add this rhs (Some this) ;;
  ret this.

(** The parenthesised conjunction written under the [return] of
    [isIdentity]. *)
Definition isIdentity_comparison (m : loc) : M bool :=
  (m.[0] ===! #1) &&!
  (m.[1] ===! #0) &&!
  (m.[2] ===! #0) &&!
  (m.[3] ===! #0) &&!
  (m.[4] ===! #0) &&!
  (m.[5] ===! #1) &&!
  (m.[6] ===! #0) &&!
  (m.[7] ===! #0) &&!
  (m.[8] ===! #0) &&!
  (m.[9] ===! #0) &&!
  (m.[10] ===! #1) &&!
  (m.[11] ===! #0) &&!
  (m.[12] ===! #0) &&!
  (m.[13] ===! #0) &&!
  (m.[14] ===! #0) &&!
  (m.[15] ===! #1).

(** [Matrix4.prototype.isIdentity = function ()]: as in [equals], the
    [return] stands alone on its line. *)
Definition isIdentity (this : loc) : M value :=
  let m := this in
  return_newline
    (isIdentity_comparison m).

(** [Matrix4.prototype.frustum = function (left, right, bottom, top, znear, zfar)] *)
Definition frustum (this : loc) (left right bottom top znear zfar : R) : M loc :=
  let temp1 := 2 * znear in
  let temp2 := right - left in
  let temp3 := top - bottom in
  let temp4 := zfar - znear in

  let r := this in
  r.[0] <~ #(temp1 / temp2) ;;
  r.[1] <~ #0 ;;
  r.[2] <~ #0 ;;
  r.[3] <~ #0 ;;
  r.[4] <~ #0 ;;
  r.[5] <~ #(temp1 / temp3) ;;
  r.[6] <~ #0 ;;
  r.[7] <~ #0 ;;
  r.[8] <~ #((right+left) / temp2) ;;
  r.[9] <~ #((top+bottom) / temp3) ;;
  r.[10] <~ #((-zfar-znear) / temp4) ;;
  r.[11] <~ #(-1) ;;
  r.[12] <~ #0 ;;
  r.[13] <~ #0 ;;
  r.[14] <~ #((-temp1 * zfar) / temp4) ;;
  r.[15] <~ #0 ;;

  ret this.

(** [Matrix4.prototype.perspective = function (fovy, aspect, znear, zfar)] *)
Definition perspective (this : loc) (fovy aspect znear zfar : R) : M loc :=
  let ymax := znear * tan (fovy * PI / 360) in
  let xmax := ymax * aspect in

  frustum this (-xmax) xmax (-ymax) ymax znear zfar.

(** [Matrix4.prototype.ortho = function (left, right, bottom, top, near, far)] *)
Definition ortho (this : loc) (left right bottom top near far : R) : M loc :=
  let r := this in

  r.[0] <~ #(2 / (right - left)) ;;
  r.[1] <~ #0 ;;
  r.[2] <~ #0 ;;
  r.[3] <~ #0 ;;
  r.[4] <~ #0 ;;
  r.[5] <~ #(2 / (top - bottom)) ;;
  r.[6] <~ #0 ;;
  r.[7] <~ #0 ;;
  r.[8] <~ #0 ;;
  r.[9] <~ #0 ;;
  r.[10] <~ #(-2 / (far - near)) ;;
  r.[11] <~ #0 ;;
  r.[12] <~ #(-(right + left) / (right - left)) ;;
  r.[13] <~ #(-(top + bottom) / (top - bottom)) ;;
  r.[14] <~ #(-(far + near) / (far - near)) ;;
  r.[15] <~ #1 ;;

  ret this.

(** [Matrix4.prototype.rotate = function (angle, axis)]; [axis[i]] is the
    vector's indexable access. *)
Definition rotate (this : loc) (angle : R) (axis : loc) : M loc :=
  let m := this in
  var x <- axis.[0]; var y <- axis.[1]; var z <- axis.[2];
  let c := cos angle in
  let s := sin angle in
  let t := 1-c in
  let tx := t * x in
  let ty := t * y in

  m.[0] <~ #(tx*x+c) ;;
  m.[1] <~ #(tx*y+s*z) ;;
  m.[2] <~ #(tx*z-s*y) ;;
  m.[3] <~ #0 ;;
  m.[4] <~ #(tx*y-s*z) ;;
  m.[5] <~ #(ty*y+c) ;;
  m.[6] <~ #(ty*z+s*x) ;;
  m.[7] <~ #0 ;;
  m.[8] <~ #(tx*z+s*y) ;;
  m.[9] <~ #(ty*z-x*s) ;;
  m.[10] <~ #(t*z*z+c) ;;
  m.[11] <~ #0 ;;
  m.[12] <~ #0 ;;
  m.[13] <~ #0 ;;
  m.[14] <~ #0 ;;
  m.[15] <~ #1 ;;

  ret this.

(** [Matrix4.prototype.translate = function (tx, ty, tz)] *)
Definition translate (this : loc) (tx ty tz : R) : M loc :=
  let m := this in

  m.[0] <~ #1 ;;
  m.[1] <~ #0 ;;
  m.[2] <~ #0 ;;
  m.[3] <~ #0 ;;
  m.[4] <~ #0 ;;
  m.[5] <~ #1 ;;
  m.[6] <~ #0 ;;
  m.[7] <~ #0 ;;
  m.[8] <~ #0 ;;
  m.[9] <~ #0 ;;
  m.[10] <~ #1 ;;
  m.[11] <~ #0 ;;
  m.[12] <~ #tx ;;
  m.[13] <~ #ty ;;
  m.[14] <~ #tz ;;
  m.[15] <~ #1 ;;

  ret this.

(** [Matrix4.prototype.scale = function (sx, sy, sz)] *)
Definition scale (this : loc) (sx sy sz : R) : M loc :=
  let m := this in

  m.[0] <~ #sx ;;
  m.[1] <~ #0 ;;
  m.[2] <~ #0 ;;
  m.[3] <~ #0 ;;
  m.[4] <~ #0 ;;
  m.[5] <~ #sy ;;
  m.[6] <~ #0 ;;
  m.[7] <~ #0 ;;
  m.[8] <~ #0 ;;
  m.[9] <~ #0 ;;
  m.[10] <~ #sz ;;
  m.[11] <~ #0 ;;
  m.[12] <~ #0 ;;
  m.[13] <~ #0 ;;
  m.[14] <~ #0 ;;
  m.[15] <~ #1 ;;

  ret this.

(** [Matrix4.prototype.setTRS = function (t, r, s)]; [t[i]] and [s[i]] are
    the vectors' indexable access, [r.x] .. [r.w] the quaternion's fields. *)
Definition setTRS (this t r s : loc) : M loc :=
  var qx <- Quaternion.x r;
  var qy <- Quaternion.y r;
  var qz <- Quaternion.z r;
  var qw <- Quaternion.w r;

  let x2 := qx + qx in
  let y2 := qy + qy in
  let z2 := qz + qz in
  let xx := qx * x2 in
  let xy := qx * y2 in
  let xz := qx * z2 in
  let yy := qy * y2 in
  let yz := qy * z2 in
  let zz := qz * z2 in
  let wx := qw * x2 in
  let wy := qw * y2 in
  let wz := qw * z2 in

  let m := this in
  m.[0] <~ #(1 - (yy + zz)) *! s.[0] ;;
  m.[1] <~ #(xy + wz) *! s.[0] ;;
  m.[2] <~ #(xz - wy) *! s.[0] ;;
  m.[3] <~ #0 ;;

  m.[4] <~ #(xy - wz) *! s.[1] ;;
  m.[5] <~ #(1 - (xx + zz)) *! s.[1] ;;
  m.[6] <~ #(yz + wx) *! s.[1] ;;
  m.[7] <~ #0 ;;

  m.[8] <~ #(xz + wy) *! s.[2] ;;
  m.[9] <~ #(yz - wx) *! s.[2] ;;
  m.[10] <~ #(1 - (xx + yy)) *! s.[2] ;;
  m.[11] <~ #0 ;;

  m.[12] <~ t.[0] ;;
  m.[13] <~ t.[1] ;;
  m.[14] <~ t.[2] ;;
  m.[15] <~ #1 ;;

  ret this.

(** [Matrix4.prototype.getTranslation = function (t)] *)
Definition getTranslation (this : loc) (t : option loc) : M loc :=
  var t <- match t with
           | None => new_Vector3
           | Some t => ret t
           end;
  t.[0] <~ this.[12] ;;
  t.[1] <~ this.[13] ;;
  t.[2] <~ this.[14] ;;

  ret t.

End prototype.

End Matrix4.

(** ** Vocabulary of the statements *)

(** The number stored at index [i] of a typed array's contents. *)
Definition el (A : list R) (i : nat) : R := default 0 (A !! i).

(** Column-major addressing: row [r], column [c]. *)
Definition entry (A : list R) (r c : nat) : R := el A (r + c * 4).

(** The sixteen entries of the matrix product, in storage order. *)
Definition product (A B : list R) : list R :=
  map (fun i => sum_f_R0 (fun k => entry A (i mod 4) k * entry B k (i / 4)) 3)
      (seq 0 16).

(** The three numbers [mulVec3] leaves in its output for the matrix contents
    [A], the vector [V] and the homogeneous coordinate [w]. *)
Definition transformed (A V : list R) (w : R) : list R :=
  map (fun c => el V 0 * el A c + el V 1 * el A (c + 4) + el V 2 * el A (c + 8)
                + w * el A (12 + c))
      (seq 0 3).

(** The value of a vector whose typed array holds [V]. *)
Definition vec_of (V : list R) : Vector3.vec3 :=
  Vector3.mk (el V 0) (el V 1) (el V 2).

(** The storage [setIdentity] leaves behind. *)
Definition identity_data : list R :=
  [1; 0; 0; 0;  0; 1; 0; 0;  0; 0; 1; 0;  0; 0; 0; 1].

(** Determinants by cofactor expansion along the first row. *)
Definition det3x3 (a b c d e f g h i : R) : R :=
  a * (e * i - f * h) - b * (d * i - f * g) + c * (d * h - e * g).

Definition determinant (A : list R) : R :=
    entry A 0 0 * det3x3 (entry A 1 1) (entry A 1 2) (entry A 1 3) (entry A 2 1) (entry A 2 2) (entry A 2 3) (entry A 3 1) (entry A 3 2) (entry A 3 3)
  - entry A 0 1 * det3x3 (entry A 1 0) (entry A 1 2) (entry A 1 3) (entry A 2 0) (entry A 2 2) (entry A 2 3) (entry A 3 0) (entry A 3 2) (entry A 3 3)
  + entry A 0 2 * det3x3 (entry A 1 0) (entry A 1 1) (entry A 1 3) (entry A 2 0) (entry A 2 1) (entry A 2 3) (entry A 3 0) (entry A 3 1) (entry A 3 3)
  - entry A 0 3 * det3x3 (entry A 1 0) (entry A 1 1) (entry A 1 2) (entry A 2 0) (entry A 2 1) (entry A 2 2) (entry A 3 0) (entry A 3 1) (entry A 3 2).

(** The determinant of the upper-left 3x3 block. *)
Definition determinant3 (A : list R) : R :=
  det3x3 (entry A 0 0) (entry A 0 1) (entry A 0 2) (entry A 1 0) (entry A 1 1) (entry A 1 2) (entry A 2 0) (entry A 2 1) (entry A 2 2).

(** [mul(M, invert(clone(M)))], the product written into [out]. *)
Definition inverse_round_trip (m out : loc) : M loc :=
  var c <- Matrix4.prototype.clone m;
  var inv <- Matrix4.prototype.invert c;
  Matrix4.mul m inv (Some out).

(** [setFromEulerXYZ(ex, ey, ez)] followed by [toEulerXYZ()]. *)
Definition euler_round_trip (this : loc) (ex ey ez : R) : M loc :=
  Matrix4.prototype.setFromEulerXYZ this ex ey ez ;;
  Matrix4.prototype.toEulerXYZ this.

(** The dot product, to state orthogonality and unit length. *)
Definition dot (a b : Vector3.vec3) : R :=
  Vector3.x a * Vector3.x b + Vector3.y a * Vector3.y b + Vector3.z a * Vector3.z b.

(** The state after the typed array at [l] has been given the contents [D]. *)
Definition set_store (s : state) (l : loc) (D : list R) : state :=
  {| store := <[l := D]> (store s); console := console s |}.

(** ** Sample states *)

Definition M0 : list R := [1; 2; 3; 4; 5; 6; 7; 8; 9; 10; 11; 12; 13; 14; 15; 16].
Definition M1 : list R := [2; 0; 0; 0; 0; 4; 0; 0; 0; 0; 5; 0; 1; 2; 3; 1].

(** Three matrices ([M0], [M1], the identity) and four vectors. *)
Definition s0 : state :=
  {| store := {[ 1%positive := M0; 2%positive := M1; 3%positive := identity_data;
                 4%positive := [0; 1; 0]; 5%positive := [0; 0; 0];
                 6%positive := [3 / 5; 0; 4 / 5]; 7%positive := [0; 0; 0] ]};
     console := [] |}.

(** [Matrix4.zero] alone. *)
Definition z0 : state :=
  {| store := {[ 1%positive := replicate 16 0 ]}; console := [] |}.

(** Five matrices: [M0], [M1], [M0] again and two more to write into. *)
Definition s2m : state :=
  {| store := {[ 1%positive := M0; 2%positive := M1; 3%positive := M0;
                 8%positive := identity_data; 9%positive := identity_data ]};
     console := [] |}.

(** A matrix, vectors (box corners, an output, a unit axis, a scale, an
    offset), the identity quaternion and another unit quaternion. *)
Definition s3 : state :=
  {| store := {[ 1%positive := M0;
                 4%positive := [0; 0; - 1]; 5%positive := [2; 2; - 3];
                 6%positive := [0; 0; 0]; 7%positive := [2; 2; - 1];
                 10%positive := [0; 0; 0; 1];
                 11%positive := [3 / 5; 0; 4 / 5];
                 12%positive := [2; 3; 4]; 13%positive := [10; 20; 30];
                 14%positive := [3 / 5; 0; 0; 4 / 5] ]};
     console := [] |}.

(** Two matrices and a unit vector. *)
Definition s4 : state :=
  {| store := {[ 1%positive := M0; 2%positive := M1;
                 11%positive := [3 / 5; 0; 4 / 5] ]};
     console := [] |}.

(** ** Symbolic execution *)

Lemma bind_ret {A B} (a : A) (k : A -> M B) s : bind (ret a) k s = k a s.
Proof. reflexivity. Qed.

Lemma bind_bind {A B C} (m : M A) (f : A -> M B) (k : B -> M C) s :
  bind (bind m f) k s = bind m (fun a => bind (f a) k) s.
Proof. unfold bind. destruct (m s); reflexivity. Qed.

Lemma bind_read {B} a i (k : R -> M B) s arr x :
  store s !! a = Some arr -> arr !! i = Some x ->
  bind (read a i) k s = k x s.
Proof. intros Ha Hi. unfold bind, read. rewrite Ha, Hi. reflexivity. Qed.

Lemma bind_write {B} a i x (k : unit -> M B) s arr :
  store s !! a = Some arr ->
  bind (write a i x) k s = k tt (set_store s a (<[i := x]> arr)).
Proof. intros Ha. unfold bind, write. rewrite Ha. reflexivity. Qed.

Lemma bind_unbound {A B} ident (k : A -> M B) s :
  bind (unbound ident) k s = Throw (ReferenceError ident) s.
Proof. reflexivity. Qed.

Lemma store_set_store s l D : store (set_store s l D) = <[l := D]> (store s).
Proof. reflexivity. Qed.

Lemma set_store_twice s l D D' : set_store (set_store s l D) l D' = set_store s l D'.
Proof. unfold set_store; cbn [store console]. f_equal. apply insert_insert_eq. Qed.

Lemma set_store_same s l D : store s !! l = Some D -> set_store s l D = s.
Proof.
  intros H. destruct s as [st c]. unfold set_store; cbn [store console] in *.
  f_equal. apply insert_id. exact H.
Qed.

Ltac solve_lookup :=
  rewrite ?store_set_store;
  first [ eassumption
        | apply lookup_insert_eq
        | rewrite lookup_insert_ne by (first [assumption | apply not_eq_sym; assumption]);
          solve_lookup
        | reflexivity ].

Ltac js_step :=
  first
    [ rewrite bind_ret
    | rewrite bind_bind
    | rewrite bind_unbound
    | erewrite bind_read by (first [solve_lookup | reflexivity])
    | erewrite bind_write by solve_lookup;
      rewrite ?set_store_twice ].

Ltac js_run := repeat js_step.

(** Name the sixteen (or three) numbers of an array of known length. *)
Ltac explode A L :=
  repeat (destruct A as [|? A]; [discriminate L|]);
  destruct A; [clear L|discriminate L].

Ltac same_array H1 H2 :=
  rewrite H1 in H2; injection H2; intros; subst; clear H2.

(** *** What the operations do to the store *)

Lemma mul_spec lhs rhs res A B C s :
  store s !! lhs = Some A -> store s !! rhs = Some B -> store s !! res = Some C ->
  length A = 16%nat -> length B = 16%nat -> length C = 16%nat ->
  Matrix4.mul lhs rhs (Some res) s = Normal res (set_store s res (product A B)).
Proof.
  intros HA HB HC LA LB LC.
  explode A LA; explode B LB; explode C LC.
  destruct (decide (lhs = res)) as [->|Hl]; [same_array HC HA|];
    (destruct (decide (rhs = res)) as [->|Hr]; [same_array HC HB|]).
  all: unfold Matrix4.mul; js_run; reflexivity.
Qed.

Lemma product_length A B : length (product A B) = 16%nat.
Proof. reflexivity. Qed.

Lemma product_lookup A B r j :
  (r < 4)%nat -> (j < 4)%nat ->
  product A B !! (r + j * 4)%nat =
  Some (sum_f_R0 (fun k => entry A r k * entry B k j) 3).
Proof.
  intros Hr Hj.
  destruct r as [|[|[|[|r]]]]; try lia;
    (destruct j as [|[|[|[|j]]]]; try lia); reflexivity.
Qed.

(** C1.  [Matrix4.mul (lhs, rhs, out)] returns [out] and changes nothing but
    the storage of [out], which then holds the matrix product under the
    column-major layout: for every row [r] and column [j], the number at index
    [r + j*4] is the sum over [k = 0..3] of [lhs[r + k*4] * rhs[k + j*4]],
    taken on the operands as they were before the call.  The three references
    may alias one another. *)
Theorem mul_is_matrix_product lhs rhs out A B C s :
  store s !! lhs = Some A -> store s !! rhs = Some B -> store s !! out = Some C ->
  length A = 16%nat -> length B = 16%nat -> length C = 16%nat ->
  exists D,
    Matrix4.mul lhs rhs (Some out) s = Normal out (set_store s out D) /\
    length D = 16%nat /\
    forall r j, (r < 4)%nat -> (j < 4)%nat ->
      D !! (r + j * 4)%nat =
      Some (sum_f_R0 (fun k => el A (r + k * 4) * el B (k + j * 4)) 3).
Proof.
  intros HA HB HC LA LB LC.
  exists (product A B). split; [|split].
  - apply mul_spec with (C := C); assumption.
  - apply product_length.
  - intros r j Hr Hj. apply product_lookup; assumption.
Qed.

Lemma mul_is_matrix_product_witness :
  exists D,
    Matrix4.mul 1%positive 2%positive (Some 3%positive) s0
      = Normal 3%positive (set_store s0 3%positive D) /\
    length D = 16%nat /\
    forall r j, (r < 4)%nat -> (j < 4)%nat ->
      D !! (r + j * 4)%nat =
      Some (sum_f_R0 (fun k => el M0 (r + k * 4) * el M1 (k + j * 4)) 3).
Proof.
  apply (mul_is_matrix_product 1%positive 2%positive 3%positive M0 M1 identity_data s0);
    reflexivity.
Defined.

Ltac list_eq tac :=
  repeat (apply (f_equal2 cons); [tac|]); reflexivity.

Lemma bind_normal {A B} (m : M A) (k : A -> M B) s a s' :
  m s = Normal a s' -> bind m k s = k a s'.
Proof. intros H. unfold bind. rewrite H. reflexivity. Qed.

Lemma setIdentity_spec this C s :
  store s !! this = Some C -> length C = 16%nat ->
  Matrix4.prototype.setIdentity this s = Normal this (set_store s this identity_data).
Proof.
  intros HC LC. explode C LC.
  unfold Matrix4.prototype.setIdentity; js_run; reflexivity.
Qed.

Lemma copy_spec this rhs A C s :
  store s !! this = Some C -> store s !! rhs = Some A ->
  length C = 16%nat -> length A = 16%nat ->
  Matrix4.prototype.copy this rhs s = Normal this (set_store s this A).
Proof.
  intros HC HA LC LA. explode A LA; explode C LC.
  destruct (decide (rhs = this)) as [->|Hne]; [same_array HC HA|].
  all: unfold Matrix4.prototype.copy; js_run; reflexivity.
Qed.

Lemma product_identity_l A : length A = 16%nat -> product identity_data A = A.
Proof.
  intros LA. explode A LA. unfold product, identity_data. simpl.
  list_eq ltac:(cbv [entry el]; simpl; ring).
Qed.

Lemma product_identity_r A : length A = 16%nat -> product A identity_data = A.
Proof.
  intros LA. explode A LA. unfold product, identity_data. simpl.
  list_eq ltac:(cbv [entry el]; simpl; ring).
Qed.

Lemma new_Float32Array_spec n s :
  new_Float32Array n s =
  Normal (fresh (dom (store s))) (set_store s (fresh (dom (store s))) (replicate n 0)).
Proof. reflexivity. Qed.

Lemma fresh_lookup (s : state) : store s !! fresh (dom (store s)) = None.
Proof. apply not_elem_of_dom. apply is_fresh. Qed.

Lemma fresh_ne (s : state) l D : store s !! l = Some D -> l <> fresh (dom (store s)).
Proof. intros H E. rewrite E, fresh_lookup in H. discriminate. Qed.

Lemma lookup_set_store_ne s l l' D : l <> l' -> store (set_store s l D) !! l' = store s !! l'.
Proof. intros H. unfold set_store; cbn [store]. apply lookup_insert_ne. exact H. Qed.

Lemma lookup_set_store_eq s l D : store (set_store s l D) !! l = Some D.
Proof. unfold set_store; cbn [store]. apply lookup_insert_eq. Qed.

Lemma constructor_spec arguments s :
  Matrix4.prototype.constructor arguments s =
  Normal (fresh (dom (store s)))
         (set_store s (fresh (dom (store s)))
            (if (length arguments =? 16)%nat then arguments else identity_data)).
Proof.
  unfold Matrix4.prototype.constructor.
  rewrite (bind_normal _ _ _ _ _ (new_Float32Array_spec 16 s)).
  set (l := fresh (dom (store s))).
  destruct (length arguments =? 16)%nat eqn:E.
  - apply Nat.eqb_eq in E.
    unfold bind at 1. unfold typed_set. rewrite lookup_set_store_eq.
    rewrite length_replicate, E. simpl Nat.ltb. cbn iota.
    rewrite <- E, drop_replicate, E. simpl replicate.
    unfold ret. f_equal. rewrite app_nil_r.
    unfold set_store; cbn [store console]. f_equal. apply insert_insert_eq.
  - rewrite bind_bind.
    erewrite bind_normal
      by (apply setIdentity_spec with (C := replicate 16 0);
          [apply lookup_set_store_eq | reflexivity]).
    rewrite set_store_twice. reflexivity.
Qed.

Lemma clone_spec this A s :
  store s !! this = Some A -> length A = 16%nat ->
  Matrix4.prototype.clone this s =
  Normal (fresh (dom (store s))) (set_store s (fresh (dom (store s))) A).
Proof.
  intros HA LA. unfold Matrix4.prototype.clone.
  rewrite (bind_normal _ _ _ _ _ (constructor_spec [] s)). simpl.
  pose proof (fresh_ne s this A HA) as Hne.
  rewrite copy_spec with (A := A) (C := identity_data).
  - rewrite set_store_twice. reflexivity.
  - apply lookup_set_store_eq.
  - rewrite lookup_set_store_ne by (apply not_eq_sym; exact Hne). exact HA.
  - reflexivity.
  - exact LA.
Qed.

Lemma invert_spec this A s :
  store s !! this = Some A -> length A = 16%nat ->
  exists D,
    Matrix4.prototype.invert this s = Normal this (set_store s this D) /\
    length D = 16%nat /\
    (determinant A <> 0 -> product A D = identity_data /\ product D A = identity_data).
Proof.
  intros HA LA. explode A LA.
  unfold Matrix4.prototype.invert. js_run.
  eexists. split; [reflexivity|]. split; [reflexivity|].
  intros Hdet.
  cbv [determinant det3x3 entry el] in Hdet. simpl in Hdet.
  unfold product, identity_data.
  split; simpl; cbv [entry el]; simpl.
  all: list_eq ltac:(field; intros E; apply Hdet; rewrite <- E; ring).
Qed.

(** C2.  For a matrix whose determinant is not zero, inverting a clone of it
    and multiplying the matrix by the result leaves the identity in the output
    matrix, exactly (the entries being real numbers).  The clone is a new
    object, so the matrix itself is not touched by the inversion. *)
Theorem invert_round_trip m out A C s :
  store s !! m = Some A -> length A = 16%nat ->
  store s !! out = Some C -> length C = 16%nat ->
  determinant A <> 0 ->
  exists D,
    inverse_round_trip m out s =
    Normal out (set_store (set_store s (fresh (dom (store s))) D) out identity_data).
Proof.
  intros HA LA HC LC Hdet.
  unfold inverse_round_trip.
  rewrite (bind_normal _ _ _ _ _ (clone_spec m A s HA LA)).
  set (c := fresh (dom (store s))).
  assert (Hmc : m <> c) by (apply fresh_ne with (D := A); exact HA).
  assert (Hoc : out <> c) by (apply fresh_ne with (D := C); exact HC).
  destruct (invert_spec c A (set_store s c A) (lookup_set_store_eq s c A) LA)
    as (D & Hinv & LD & Hprod).
  rewrite (bind_normal _ _ _ _ _ Hinv), set_store_twice.
  exists D.
  rewrite mul_spec with (A := A) (B := D) (C := C); try assumption.
  - destruct (Hprod Hdet) as [-> _]. reflexivity.
  - rewrite lookup_set_store_ne by (apply not_eq_sym; exact Hmc). exact HA.
  - apply lookup_set_store_eq.
  - rewrite lookup_set_store_ne by (apply not_eq_sym; exact Hoc). exact HC.
Qed.

Lemma invert_round_trip_witness :
  exists D,
    inverse_round_trip 2%positive 3%positive s0 =
    Normal 3%positive
      (set_store (set_store s0 (fresh (dom (store s0))) D) 3%positive identity_data).
Proof.
  apply (invert_round_trip 2%positive 3%positive M1 identity_data s0);
    try reflexivity.
  cbv [determinant det3x3 entry el M1]. simpl. lra.
Defined.

(** C3.  Multiplying by the identity matrix on either side gives back the
    other operand: the output storage ends up holding exactly the sixteen
    entries of [M]. *)
Theorem mul_identity i m out A C s :
  store s !! i = Some identity_data ->
  store s !! m = Some A -> length A = 16%nat ->
  store s !! out = Some C -> length C = 16%nat ->
  Matrix4.mul i m (Some out) s = Normal out (set_store s out A) /\
  Matrix4.mul m i (Some out) s = Normal out (set_store s out A).
Proof.
  intros HI HA LA HC LC. split.
  - rewrite mul_spec with (A := identity_data) (B := A) (C := C); try assumption.
    + rewrite product_identity_l by exact LA. reflexivity.
    + reflexivity.
  - rewrite mul_spec with (A := A) (B := identity_data) (C := C); try assumption.
    + rewrite product_identity_r by exact LA. reflexivity.
    + reflexivity.
Qed.

Lemma mul_identity_witness :
  Matrix4.mul 3%positive 1%positive (Some 2%positive) s0
    = Normal 2%positive (set_store s0 2%positive M0) /\
  Matrix4.mul 1%positive 3%positive (Some 2%positive) s0
    = Normal 2%positive (set_store s0 2%positive M0).
Proof.
  apply (mul_identity 3%positive 1%positive 2%positive M0 M1 s0); reflexivity.
Defined.

(** C4.  [equals] never compares anything: whatever the two matrices hold, it
    returns [undefined] and leaves the state as it was. *)
Theorem equals_returns_undefined this rhs s :
  Matrix4.prototype.equals this rhs s = Normal VUndefined s.
Proof. reflexivity. Qed.

(** C5.  [transpose] reads the identifier [m], which nothing binds: every call
    raises a ReferenceError before any entry is read or written. *)
Theorem transpose_throws this s :
  Matrix4.prototype.transpose this s = Throw (ReferenceError "m") s.
Proof. reflexivity. Qed.

Lemma bind_console_warn {B} msg (k : unit -> M B) s :
  bind (console_warn msg) k s =
  k tt {| store := store s; console := console s ++ [msg] |}.
Proof. reflexivity. Qed.

Lemma invertTo3x3_spec this A s :
  store s !! this = Some A -> length A = 16%nat ->
  Matrix4.prototype.invertTo3x3 this s =
  Throw (ReferenceError "r")
    (if Req_dec_T (determinant3 A) 0
     then {| store := store s;
             console := console s ++ ["pc.Matrix4#invertTo3x3: Matrix not invertible"%string] |}
     else s).
Proof.
  intros HA LA. explode A LA.
  unfold Matrix4.prototype.invertTo3x3, lift2, lift1. js_run.
  cbv [determinant3 det3x3 entry el]. simpl.
  match goal with
  | |- (if Req_dec_T ?d 0 then _ else _) _ = Throw _ (if Req_dec_T ?d' 0 then _ else _) =>
      replace d' with d by ring; destruct (Req_dec_T d 0)
  end.
  - rewrite bind_console_warn. reflexivity.
  - reflexivity.
Qed.

(** C7.  When the upper-left 3x3 block has determinant zero, [invertTo3x3]
    logs its warning and leaves every typed array as it was, but it does not
    return: [return r] reads the unbound identifier [r] and raises a
    ReferenceError. *)
Theorem invertTo3x3_singular this A s :
  store s !! this = Some A -> length A = 16%nat ->
  determinant3 A = 0 ->
  Matrix4.prototype.invertTo3x3 this s =
  Throw (ReferenceError "r")
    {| store := store s;
       console := console s ++ ["pc.Matrix4#invertTo3x3: Matrix not invertible"%string] |}.
Proof.
  intros HA LA Hdet. rewrite invertTo3x3_spec with (A := A) by assumption.
  destruct (Req_dec_T (determinant3 A) 0); [reflexivity|contradiction].
Qed.

Lemma invertTo3x3_singular_witness :
  Matrix4.prototype.invertTo3x3 1%positive z0 =
  Throw (ReferenceError "r")
    {| store := store z0;
       console := console z0 ++ ["pc.Matrix4#invertTo3x3: Matrix not invertible"%string] |}.
Proof.
  apply (invertTo3x3_singular 1%positive (replicate 16 0) z0); try reflexivity.
  cbv [determinant3 det3x3 entry el]. simpl. lra.
Defined.

(** C9.  [setFromEulerXYZ] reads the identifier [x], which nothing binds (its
    parameters are called [ex], [ey], [ez]): for all angles the call raises a
    ReferenceError and writes nothing, so the round trip through [toEulerXYZ]
    never produces a vector. *)
Theorem euler_round_trip_throws this ex ey ez s :
  Matrix4.prototype.setFromEulerXYZ this ex ey ez s = Throw (ReferenceError "x") s /\
  euler_round_trip this ex ey ez s = Throw (ReferenceError "x") s.
Proof. split; reflexivity. Qed.

(** C10.  The constructor allocates a new typed array and fills it with the
    identity for every number of arguments other than sixteen; with exactly
    sixteen arguments the storage is the arguments, in order. *)
Theorem constructor_identity_unless_16 (arguments : list R) s :
  (length arguments <> 16%nat ->
   Matrix4.prototype.constructor arguments s =
   Normal (fresh (dom (store s))) (set_store s (fresh (dom (store s))) identity_data)) /\
  (length arguments = 16%nat ->
   Matrix4.prototype.constructor arguments s =
   Normal (fresh (dom (store s))) (set_store s (fresh (dom (store s))) arguments)).
Proof.
  rewrite constructor_spec. split; intros H.
  - apply Nat.eqb_neq in H. rewrite H. reflexivity.
  - apply Nat.eqb_eq in H. rewrite H. reflexivity.
Qed.

Lemma constructor_identity_unless_16_witness :
  let l := fresh (dom (store s0)) in
  Matrix4.prototype.constructor [] s0 = Normal l (set_store s0 l identity_data) /\
  Matrix4.prototype.constructor [7] s0 = Normal l (set_store s0 l identity_data) /\
  Matrix4.prototype.constructor [7; 8; 9] s0 = Normal l (set_store s0 l identity_data) /\
  Matrix4.prototype.constructor (M0 ++ [17]) s0 = Normal l (set_store s0 l identity_data) /\
  Matrix4.prototype.constructor M0 s0 = Normal l (set_store s0 l M0).
Proof.
  intros l. split; [|split; [|split; [|split]]].
  - apply (constructor_identity_unless_16 [] s0). simpl. lia.
  - apply (constructor_identity_unless_16 [7] s0). simpl. lia.
  - apply (constructor_identity_unless_16 [7; 8; 9] s0). simpl. lia.
  - apply (constructor_identity_unless_16 (M0 ++ [17]) s0). simpl. lia.
  - apply (constructor_identity_unless_16 M0 s0). reflexivity.
Defined.

Lemma mulVec3_spec mtx vec res w A V W s :
  store s !! mtx = Some A -> length A = 16%nat ->
  store s !! vec = Some V -> length V = 3%nat ->
  store s !! res = Some W -> length W = 3%nat ->
  Matrix4.mulVec3 mtx vec w (Some res) s = Normal res (set_store s res (transformed A V w)).
Proof.
  intros HA LA HV LV HW LW.
  assert (Hmr : mtx <> res) by (intros ->; rewrite HA in HW; injection HW as ->; lia).
  explode A LA; explode V LV; explode W LW.
  destruct (decide (vec = res)) as [->|Hvr]; [same_array HW HV|].
  all: unfold Matrix4.mulVec3, lift2; js_run; reflexivity.
Qed.

(** C6 (amended).  [mulVec3 (mtx, vec, w, out)] returns [out] and changes
    nothing but [out], whose three numbers are the first three coordinates of
    the matrix applied to the column vector [(vec, w)]:
    [out[c] = vec[0]*mtx[c] + vec[1]*mtx[c + 4] + vec[2]*mtx[c + 8] + w*mtx[12 + c]]
    for [c] in 0..2.  [out] may be [vec] itself. *)
Theorem mulVec3_column_vector mtx vec out w A V W s :
  store s !! mtx = Some A -> length A = 16%nat ->
  store s !! vec = Some V -> length V = 3%nat ->
  store s !! out = Some W -> length W = 3%nat ->
  exists D,
    Matrix4.mulVec3 mtx vec w (Some out) s = Normal out (set_store s out D) /\
    length D = 3%nat /\
    forall c, (c < 3)%nat ->
      D !! c = Some (el V 0 * el A c + el V 1 * el A (c + 4) +
                     el V 2 * el A (c + 8) + w * el A (12 + c)).
Proof.
  intros HA LA HV LV HW LW.
  exists (transformed A V w). split; [|split].
  - apply mulVec3_spec with (W := W); assumption.
  - reflexivity.
  - intros c Hc. destruct c as [|[|[|c]]]; try lia; reflexivity.
Qed.

Lemma mulVec3_column_vector_witness :
  exists D,
    Matrix4.mulVec3 1%positive 4%positive 1 (Some 5%positive) s0
      = Normal 5%positive (set_store s0 5%positive D) /\
    length D = 3%nat /\
    forall c, (c < 3)%nat ->
      D !! c = Some (el [0; 1; 0] 0 * el M0 c + el [0; 1; 0] 1 * el M0 (c + 4) +
                     el [0; 1; 0] 2 * el M0 (c + 8) + 1 * el M0 (12 + c)).
Proof.
  apply (mulVec3_column_vector 1%positive 4%positive 5%positive 1 M0 [0; 1; 0] [0; 0; 0] s0);
    reflexivity.
Defined.

(** C6 as stated fails.  With the matrix [M0] (entries 1..16 in storage
    order), the vector [(0, 1, 0)] and [w = 0], the first output coordinate is
    [M0[4] = 5], whereas the stated formula
    [vec[0]*mtx[0] + vec[1]*mtx[1] + vec[2]*mtx[2] + w*mtx[12]] gives
    [M0[1] = 2]. *)
Lemma mulVec3_row_vector_counterexample :
  exists D,
    Matrix4.mulVec3 1%positive 4%positive 0 (Some 5%positive) s0
      = Normal 5%positive (set_store s0 5%positive D) /\
    D !! 0%nat = Some 5 /\
    D !! 0%nat <> Some (el [0; 1; 0] 0 * el M0 (0 * 4) + el [0; 1; 0] 1 * el M0 (1 + 0 * 4) +
                        el [0; 1; 0] 2 * el M0 (2 + 0 * 4) + 0 * el M0 (12 + 0)).
Proof.
  exists [5; 6; 7]. split; [|split].
  - rewrite mulVec3_spec with (A := M0) (V := [0; 1; 0]) (W := [0; 0; 0]) by reflexivity.
    do 2 f_equal. cbv [transformed el M0]. simpl. list_eq lra.
  - reflexivity.
  - cbv [el M0]. simpl. intros H. injection H as H. lra.
Qed.

(** *** Facts about the vector operations *)

Lemma length_pos v : v <> Vector3.mk 0 0 0 -> 0 < Vector3.length v.
Proof.
  destruct v as [a b c]. intros Hv. unfold Vector3.length; simpl.
  apply sqrt_lt_R0.
  destruct (Req_dec a 0) as [->|Ha]; [|nra].
  destruct (Req_dec b 0) as [->|Hb]; [|nra].
  destruct (Req_dec c 0) as [->|Hc]; [|nra].
  contradiction.
Qed.

Lemma normalize_scaled k a b c :
  0 < k ->
  Vector3.normalize (Vector3.mk (k * a) (k * b) (k * c)) =
  Vector3.normalize (Vector3.mk a b c).
Proof.
  intros Hk. unfold Vector3.normalize, Vector3.length; simpl.
  replace (k * a * (k * a) + k * b * (k * b) + k * c * (k * c))
    with (k * k * (a * a + b * b + c * c)) by ring.
  rewrite sqrt_mult_alt by nra.
  rewrite sqrt_square by lra.
  set (S := sqrt (a * a + b * b + c * c)).
  unfold Rdiv. rewrite Rinv_mult.
  f_equal.
  - replace (k * a * (/ k * / S)) with ((k * / k) * (a * / S)) by ring.
    rewrite Rinv_r by lra. ring.
  - replace (k * b * (/ k * / S)) with ((k * / k) * (b * / S)) by ring.
    rewrite Rinv_r by lra. ring.
  - replace (k * c * (/ k * / S)) with ((k * / k) * (c * / S)) by ring.
    rewrite Rinv_r by lra. ring.
Qed.

Lemma normalize_cross_normalize u d :
  0 < Vector3.length u ->
  Vector3.normalize (Vector3.cross (Vector3.normalize u) d) =
  Vector3.normalize (Vector3.cross u d).
Proof.
  intros Hu. destruct u as [a b c], d as [a' b' c'].
  set (k := / Vector3.length (Vector3.mk a b c)).
  transitivity (Vector3.normalize
                  (Vector3.mk (k * (b * c' - c * b')) (k * (c * a' - a * c'))
                     (k * (a * b' - b * a')))).
  - f_equal. unfold Vector3.cross, Vector3.normalize; simpl. unfold Rdiv. fold k.
    f_equal; ring.
  - rewrite normalize_scaled by (apply Rinv_0_lt_compat; exact Hu).
    reflexivity.
Qed.

Lemma cross_zero_l d : Vector3.cross (Vector3.mk 0 0 0) d = Vector3.mk 0 0 0.
Proof. unfold Vector3.cross; simpl. f_equal; ring. Qed.

Lemma lookAt_spec this position target up C P T U s :
  store s !! this = Some C -> length C = 16%nat ->
  store s !! position = Some P -> length P = 3%nat ->
  store s !! target = Some T -> length T = 3%nat ->
  store s !! up = Some U -> length U = 3%nat ->
  let z := Vector3.normalize (Vector3.subtract (vec_of P) (vec_of T)) in
  let x := Vector3.normalize (Vector3.cross (Vector3.normalize (vec_of U)) z) in
  let y := Vector3.cross z x in
  Matrix4.prototype.lookAt this position target up s =
  Normal this
    (set_store s this
       [Vector3.x x; Vector3.y x; Vector3.z x; 0;
        Vector3.x y; Vector3.y y; Vector3.z y; 0;
        Vector3.x z; Vector3.y z; Vector3.z z; 0;
        el P 0; el P 1; el P 2; 1]).
Proof.
  intros HC LC HP LP HT LT HU LU.
  assert (Hp : this <> position) by (intros ->; rewrite HC in HP; injection HP as ->; lia).
  explode C LC; explode P LP; explode T LT; explode U LU.
  intros z x y.
  unfold Matrix4.prototype.lookAt, Vector3.load. js_run. reflexivity.
Qed.

(** C8 (amended).  For [up] not parallel to [position - target], [lookAt]
    computes [z = normalize (position - target)], [x = normalize (cross (up, z))]
    and [y = cross (z, x)], and writes [x], [y], [z] as the COLUMNS of the
    rotation block: [x] into the entries 0, 1, 2, [y] into 4, 5, 6, [z] into
    8, 9, 10; the entries 3, 7, 11 are 0, [position] goes into 12, 13, 14 and
    entry 15 is 1.  Nothing but the receiver's storage changes. *)
Theorem lookAt_columns this position target up C P T U s :
  store s !! this = Some C -> length C = 16%nat ->
  store s !! position = Some P -> length P = 3%nat ->
  store s !! target = Some T -> length T = 3%nat ->
  store s !! up = Some U -> length U = 3%nat ->
  Vector3.cross (vec_of U) (Vector3.subtract (vec_of P) (vec_of T)) <> Vector3.mk 0 0 0 ->
  let z := Vector3.normalize (Vector3.subtract (vec_of P) (vec_of T)) in
  let x := Vector3.normalize (Vector3.cross (vec_of U) z) in
  let y := Vector3.cross z x in
  Matrix4.prototype.lookAt this position target up s =
  Normal this
    (set_store s this
       [Vector3.x x; Vector3.y x; Vector3.z x; 0;
        Vector3.x y; Vector3.y y; Vector3.z y; 0;
        Vector3.x z; Vector3.y z; Vector3.z z; 0;
        el P 0; el P 1; el P 2; 1]).
Proof.
  intros HC LC HP LP HT LT HU LU Hnp z x y.
  assert (HUpos : 0 < Vector3.length (vec_of U)).
  { apply length_pos. intros E. apply Hnp. rewrite E. apply cross_zero_l. }
  rewrite (lookAt_spec this position target up C P T U s) by assumption.
  cbv zeta. rewrite (normalize_cross_normalize (vec_of U)) by exact HUpos.
  reflexivity.
Qed.

Lemma example_z :
  Vector3.normalize (Vector3.subtract (vec_of [3 / 5; 0; 4 / 5]) (vec_of [0; 0; 0])) =
  Vector3.mk (3 / 5) 0 (4 / 5).
Proof.
  unfold Vector3.normalize, Vector3.length, Vector3.subtract, vec_of, el; simpl.
  replace ((3 / 5 - 0) * (3 / 5 - 0) + (0 - 0) * (0 - 0) + (4 / 5 - 0) * (4 / 5 - 0))
    with 1 by lra.
  rewrite sqrt_1. f_equal; lra.
Qed.

Lemma example_x :
  Vector3.normalize (Vector3.cross (vec_of [0; 1; 0]) (Vector3.mk (3 / 5) 0 (4 / 5))) =
  Vector3.mk (4 / 5) 0 (- (3 / 5)).
Proof.
  unfold Vector3.normalize, Vector3.length, Vector3.cross, vec_of, el; simpl.
  replace ((1 * (4 / 5) - 0 * 0) * (1 * (4 / 5) - 0 * 0) +
           (0 * (3 / 5) - 0 * (4 / 5)) * (0 * (3 / 5) - 0 * (4 / 5)) +
           (0 * 0 - 1 * (3 / 5)) * (0 * 0 - 1 * (3 / 5)))
    with 1 by lra.
  rewrite sqrt_1. f_equal; lra.
Qed.

Lemma lookAt_columns_witness :
  let z := Vector3.normalize
             (Vector3.subtract (vec_of [3 / 5; 0; 4 / 5]) (vec_of [0; 0; 0])) in
  let x := Vector3.normalize (Vector3.cross (vec_of [0; 1; 0]) z) in
  let y := Vector3.cross z x in
  Matrix4.prototype.lookAt 1%positive 6%positive 7%positive 4%positive s0 =
  Normal 1%positive
    (set_store s0 1%positive
       [Vector3.x x; Vector3.y x; Vector3.z x; 0;
        Vector3.x y; Vector3.y y; Vector3.z y; 0;
        Vector3.x z; Vector3.y z; Vector3.z z; 0;
        el [3 / 5; 0; 4 / 5] 0; el [3 / 5; 0; 4 / 5] 1; el [3 / 5; 0; 4 / 5] 2; 1]).
Proof.
  apply (lookAt_columns 1%positive 6%positive 7%positive 4%positive
           M0 [3 / 5; 0; 4 / 5] [0; 0; 0] [0; 1; 0] s0); try reflexivity.
  unfold Vector3.cross, Vector3.subtract, vec_of, el; simpl.
  intros E. injection E as E1 E2 E3. lra.
Defined.

(** C8 as stated fails.  From [position = (3/5, 0, 4/5)], [target = (0, 0, 0)]
    and [up = (0, 1, 0)] the basis is [z = (3/5, 0, 4/5)],
    [x = (4/5, 0, -3/5)], [y = (0, 1, 0)].  Entry 8 of the result is
    [z[0] = 3/5] and entry 2 is [x[2] = -3/5]; were [x] written as a row
    (entries 0, 4, 8) and [z] as a row (entries 2, 6, 10), entry 8 would be
    [x[2]] and entry 2 would be [z[0]]. *)
Lemma lookAt_rows_counterexample :
  let z := Vector3.normalize
             (Vector3.subtract (vec_of [3 / 5; 0; 4 / 5]) (vec_of [0; 0; 0])) in
  let x := Vector3.normalize (Vector3.cross (vec_of [0; 1; 0]) z) in
  exists D,
    Matrix4.prototype.lookAt 1%positive 6%positive 7%positive 4%positive s0
      = Normal 1%positive (set_store s0 1%positive D) /\
    D !! 8%nat = Some (3 / 5) /\ D !! 2%nat = Some (- (3 / 5)) /\
    D !! 8%nat <> Some (Vector3.index x 2) /\
    D !! 2%nat <> Some (Vector3.index z 0).
Proof.
  intros z x.
  eexists. split.
  - apply (lookAt_columns 1%positive 6%positive 7%positive 4%positive
             M0 [3 / 5; 0; 4 / 5] [0; 0; 0] [0; 1; 0] s0); try reflexivity.
    unfold Vector3.cross, Vector3.subtract, vec_of, el; simpl.
    intros E. injection E as E1 E2 E3. lra.
  - fold z. fold x. subst x. subst z. rewrite example_z, example_x.
    cbn [lookup list_lookup Vector3.x Vector3.y Vector3.z Vector3.index].
    repeat split.
    + intros E. injection E as E. lra.
    + intros E. injection E as E. lra.
Qed.

(** ** Further operations *)

(** *** What the remaining operations do to the store *)

Lemma add_spec lhs rhs res A B C s :
  store s !! lhs = Some A -> store s !! rhs = Some B -> store s !! res = Some C ->
  length A = 16%nat -> length B = 16%nat -> length C = 16%nat ->
  Matrix4.add lhs rhs (Some res) s = Normal res (set_store s res (zip_with Rplus A B)).
Proof.
  intros HA HB HC LA LB LC.
  explode A LA; explode B LB; explode C LC.
  destruct (decide (lhs = res)) as [->|Hl]; [same_array HC HA|];
    (destruct (decide (rhs = res)) as [->|Hr]; [same_array HC HB|]).
  all: unfold Matrix4.add, lift2; js_run; reflexivity.
Qed.

Lemma translate_spec this tx ty tz C s :
  store s !! this = Some C -> length C = 16%nat ->
  Matrix4.prototype.translate this tx ty tz s =
  Normal this (set_store s this [1; 0; 0; 0; 0; 1; 0; 0; 0; 0; 1; 0; tx; ty; tz; 1]).
Proof.
  intros HC LC. explode C LC.
  unfold Matrix4.prototype.translate; js_run; reflexivity.
Qed.

Lemma scale_spec this sx sy sz C s :
  store s !! this = Some C -> length C = 16%nat ->
  Matrix4.prototype.scale this sx sy sz s =
  Normal this (set_store s this [sx; 0; 0; 0; 0; sy; 0; 0; 0; 0; sz; 0; 0; 0; 0; 1]).
Proof.
  intros HC LC. explode C LC.
  unfold Matrix4.prototype.scale; js_run; reflexivity.
Qed.

Lemma ortho_spec this left right bottom top near far C s :
  store s !! this = Some C -> length C = 16%nat ->
  Matrix4.prototype.ortho this left right bottom top near far s =
  Normal this
    (set_store s this
       [2 / (right - left); 0; 0; 0;
        0; 2 / (top - bottom); 0; 0;
        0; 0; -2 / (far - near); 0;
        -(right + left) / (right - left); -(top + bottom) / (top - bottom);
        -(far + near) / (far - near); 1]).
Proof.
  intros HC LC. explode C LC.
  unfold Matrix4.prototype.ortho; js_run; reflexivity.
Qed.

Lemma frustum_spec this left right bottom top znear zfar C s :
  store s !! this = Some C -> length C = 16%nat ->
  Matrix4.prototype.frustum this left right bottom top znear zfar s =
  Normal this
    (set_store s this
       [2 * znear / (right - left); 0; 0; 0;
        0; 2 * znear / (top - bottom); 0; 0;
        (right + left) / (right - left); (top + bottom) / (top - bottom);
        (- zfar - znear) / (zfar - znear); -1;
        0; 0; - (2 * znear) * zfar / (zfar - znear); 0]).
Proof.
  intros HC LC. explode C LC.
  unfold Matrix4.prototype.frustum; js_run; reflexivity.
Qed.

Lemma rotate_spec this angle axis C V s :
  store s !! this = Some C -> length C = 16%nat ->
  store s !! axis = Some V -> length V = 3%nat ->
  let x := el V 0 in
  let y := el V 1 in
  let z := el V 2 in
  let c := cos angle in
  let sn := sin angle in
  let t := 1 - c in
  Matrix4.prototype.rotate this angle axis s =
  Normal this
    (set_store s this
       [t * x * x + c; t * x * y + sn * z; t * x * z - sn * y; 0;
        t * x * y - sn * z; t * y * y + c; t * y * z + sn * x; 0;
        t * x * z + sn * y; t * y * z - x * sn; t * z * z + c; 0;
        0; 0; 0; 1]).
Proof.
  intros HC LC HV LV. explode C LC; explode V LV.
  unfold Matrix4.prototype.rotate; js_run; reflexivity.
Qed.

Lemma setTRS_spec this t r sc C T Q S s :
  store s !! this = Some C -> length C = 16%nat ->
  store s !! t = Some T -> length T = 3%nat ->
  store s !! r = Some Q -> length Q = 4%nat ->
  store s !! sc = Some S -> length S = 3%nat ->
  let qx := el Q 0 in
  let qy := el Q 1 in
  let qz := el Q 2 in
  let qw := el Q 3 in
  Matrix4.prototype.setTRS this t r sc s =
  Normal this
    (set_store s this
       [(1 - (qy * (qy + qy) + qz * (qz + qz))) * el S 0;
        (qx * (qy + qy) + qw * (qz + qz)) * el S 0;
        (qx * (qz + qz) - qw * (qy + qy)) * el S 0; 0;
        (qx * (qy + qy) - qw * (qz + qz)) * el S 1;
        (1 - (qx * (qx + qx) + qz * (qz + qz))) * el S 1;
        (qy * (qz + qz) + qw * (qx + qx)) * el S 1; 0;
        (qx * (qz + qz) + qw * (qy + qy)) * el S 2;
        (qy * (qz + qz) - qw * (qx + qx)) * el S 2;
        (1 - (qx * (qx + qx) + qy * (qy + qy))) * el S 2; 0;
        el T 0; el T 1; el T 2; 1]).
Proof.
  intros HC LC HT LT HQ LQ HS LS.
  assert (Ht : this <> t) by (intros ->; rewrite HC in HT; injection HT as ->; lia).
  assert (Hs : this <> sc) by (intros ->; rewrite HC in HS; injection HS as ->; lia).
  explode C LC; explode T LT; explode Q LQ; explode S LS.
  unfold Matrix4.prototype.setTRS, Quaternion.x, Quaternion.y, Quaternion.z,
    Quaternion.w, lift2.
  js_run; reflexivity.
Qed.

Lemma getTranslation_spec this t A W s :
  store s !! this = Some A -> length A = 16%nat ->
  store s !! t = Some W -> length W = 3%nat ->
  Matrix4.prototype.getTranslation this (Some t) s =
  Normal t (set_store s t [el A 12; el A 13; el A 14]).
Proof.
  intros HA LA HW LW.
  assert (Hne : t <> this) by (intros ->; rewrite HA in HW; injection HW as ->; lia).
  explode A LA; explode W LW.
  unfold Matrix4.prototype.getTranslation; js_run; reflexivity.
Qed.

Lemma diff_length (s : state) a b (A B : list R) :
  store s !! a = Some A -> store s !! b = Some B -> length A <> length B -> a <> b.
Proof. intros HA HB Hl ->. rewrite HA in HB. injection HB as ->. contradiction. Qed.

Lemma zip_plus_lookup (A B : list R) i :
  length A = 16%nat -> length B = 16%nat -> (i < 16)%nat ->
  zip_with Rplus A B !! i = Some (el A i + el B i).
Proof.
  intros LA LB Hi. explode A LA; explode B LB.
  do 16 (destruct i as [|i]; [reflexivity|]). lia.
Qed.

(** X1.  [Matrix4.add (lhs, rhs, out)] returns [out] and changes nothing
    but the storage of [out], whose sixteen numbers become the entrywise sums
    of the operands as they were before the call; the three references may
    alias one another. *)
Theorem add_is_entrywise_sum lhs rhs out A B C s :
  store s !! lhs = Some A -> store s !! rhs = Some B -> store s !! out = Some C ->
  length A = 16%nat -> length B = 16%nat -> length C = 16%nat ->
  exists D,
    Matrix4.add lhs rhs (Some out) s = Normal out (set_store s out D) /\
    length D = 16%nat /\
    forall i, (i < 16)%nat -> D !! i = Some (el A i + el B i).
Proof.
  intros HA HB HC LA LB LC.
  exists (zip_with Rplus A B). split; [|split].
  - apply add_spec with (C := C); assumption.
  - rewrite length_zip_with. lia.
  - intros i Hi. apply zip_plus_lookup; assumption.
Qed.

Lemma add_is_entrywise_sum_witness :
  exists D,
    Matrix4.add 1%positive 2%positive (Some 1%positive) s0
      = Normal 1%positive (set_store s0 1%positive D) /\
    length D = 16%nat /\
    forall i, (i < 16)%nat -> D !! i = Some (el M0 i + el M1 i).
Proof.
  apply (add_is_entrywise_sum 1%positive 2%positive 1%positive M0 M1 M0 s0); reflexivity.
Defined.

(** X2.  Addition commutes: swapping the operands of [Matrix4.add] gives
    the same result and the same final state. *)
Theorem add_commutes lhs rhs out A B C s :
  store s !! lhs = Some A -> store s !! rhs = Some B -> store s !! out = Some C ->
  length A = 16%nat -> length B = 16%nat -> length C = 16%nat ->
  Matrix4.add lhs rhs (Some out) s = Matrix4.add rhs lhs (Some out) s.
Proof.
  intros HA HB HC LA LB LC.
  rewrite add_spec with (A := A) (B := B) (C := C) by assumption.
  rewrite add_spec with (A := B) (B := A) (C := C) by assumption.
  do 2 f_equal. explode A LA; explode B LB. simpl. list_eq ltac:(ring).
Qed.

Lemma add_commutes_witness :
  Matrix4.add 1%positive 2%positive (Some 3%positive) s0 =
  Matrix4.add 2%positive 1%positive (Some 3%positive) s0.
Proof.
  apply (add_commutes 1%positive 2%positive 3%positive M0 M1 identity_data s0); reflexivity.
Defined.

(** X3.  The instance operators work in place: [this.mul (rhs)] leaves the
    product [this * rhs] and [this.add (rhs)] the sum in the receiver's own
    storage, computed from the entries as they were before the call, and
    return the receiver; [rhs] may be the receiver itself. *)
Theorem instance_operators_in_place this rhs A B s :
  store s !! this = Some A -> store s !! rhs = Some B ->
  length A = 16%nat -> length B = 16%nat ->
  (exists D,
     Matrix4.prototype.mul this rhs s = Normal this (set_store s this D) /\
     forall r j, (r < 4)%nat -> (j < 4)%nat ->
       D !! (r + j * 4)%nat =
       Some (sum_f_R0 (fun k => el A (r + k * 4) * el B (k + j * 4)) 3)) /\
  (exists D,
     Matrix4.prototype.add this rhs s = Normal this (set_store s this D) /\
     forall i, (i < 16)%nat -> D !! i = Some (el A i + el B i)).
Proof.
  intros HA HB LA LB. split.
  - exists (product A B). split.
    + unfold Matrix4.prototype.mul.
      rewrite (bind_normal _ _ _ _ _
                 (mul_spec this rhs this A B A s HA HB HA LA LB LA)).
      reflexivity.
    + intros r j Hr Hj. apply product_lookup; assumption.
  - exists (zip_with Rplus A B). split.
    + unfold Matrix4.prototype.add.
      rewrite (bind_normal _ _ _ _ _
                 (add_spec this rhs this A B A s HA HB HA LA LB LA)).
      reflexivity.
    + intros i Hi. apply zip_plus_lookup; assumption.
Qed.

Lemma instance_operators_in_place_witness :
  (exists D,
     Matrix4.prototype.mul 1%positive 1%positive s0
       = Normal 1%positive (set_store s0 1%positive D) /\
     forall r j, (r < 4)%nat -> (j < 4)%nat ->
       D !! (r + j * 4)%nat =
       Some (sum_f_R0 (fun k => el M0 (r + k * 4) * el M0 (k + j * 4)) 3)) /\
  (exists D,
     Matrix4.prototype.add 1%positive 1%positive s0
       = Normal 1%positive (set_store s0 1%positive D) /\
     forall i, (i < 16)%nat -> D !! i = Some (el M0 i + el M0 i)).
Proof.
  apply (instance_operators_in_place 1%positive 1%positive M0 M0 s0); reflexivity.
Defined.

(** X4.  [isIdentity] never compares anything: whatever the matrix holds,
    the identity included, it returns [undefined] and leaves the state as it
    was. *)
Theorem isIdentity_returns_undefined this s :
  Matrix4.prototype.isIdentity this s = Normal VUndefined s.
Proof. reflexivity. Qed.

Lemma product_assoc A B C :
  length A = 16%nat -> length B = 16%nat -> length C = 16%nat ->
  product (product A B) C = product A (product B C).
Proof.
  intros LA LB LC. explode A LA; explode B LB; explode C LC.
  unfold product. simpl. list_eq ltac:(cbv [entry el]; simpl; ring).
Qed.

(** X5.  Multiplication is associative: computing [(a * b) * c] through a
    temporary [t] and computing [a * (b * c)] through it leave the same
    sixteen numbers in [out]. *)
Theorem mul_associative a b c t out A B C T O s :
  store s !! a = Some A -> store s !! b = Some B -> store s !! c = Some C ->
  store s !! t = Some T -> store s !! out = Some O ->
  length A = 16%nat -> length B = 16%nat -> length C = 16%nat ->
  length T = 16%nat -> length O = 16%nat ->
  t <> a -> t <> b -> t <> c -> t <> out ->
  exists D s1 s2,
    (Matrix4.mul a b (Some t) ;; Matrix4.mul t c (Some out)) s = Normal out s1 /\
    (Matrix4.mul b c (Some t) ;; Matrix4.mul a t (Some out)) s = Normal out s2 /\
    store s1 !! out = Some D /\ store s2 !! out = Some D.
Proof.
  intros HA HB HC HT HO LA LB LC LT LO Hta Htb Htc Hto.
  exists (product (product A B) C).
  eexists. eexists. split; [|split; [|split]].
  - rewrite (bind_normal _ _ _ _ _ (mul_spec a b t A B T s HA HB HT LA LB LT)).
    apply mul_spec with (A := product A B) (B := C) (C := O);
      try assumption; try apply product_length.
    + apply lookup_set_store_eq.
    + rewrite lookup_set_store_ne by assumption. exact HC.
    + rewrite lookup_set_store_ne by assumption. exact HO.
  - rewrite (bind_normal _ _ _ _ _ (mul_spec b c t B C T s HB HC HT LB LC LT)).
    apply mul_spec with (A := A) (B := product B C) (C := O);
      try assumption; try apply product_length.
    + rewrite lookup_set_store_ne by assumption. exact HA.
    + apply lookup_set_store_eq.
    + rewrite lookup_set_store_ne by assumption. exact HO.
  - apply lookup_set_store_eq.
  - rewrite product_assoc by assumption. apply lookup_set_store_eq.
Qed.

Lemma mul_associative_witness :
  exists D s1 s2,
    (Matrix4.mul 1%positive 2%positive (Some 8%positive) ;;
     Matrix4.mul 8%positive 3%positive (Some 9%positive)) s2m = Normal 9%positive s1 /\
    (Matrix4.mul 2%positive 3%positive (Some 8%positive) ;;
     Matrix4.mul 1%positive 8%positive (Some 9%positive)) s2m = Normal 9%positive s2 /\
    store s1 !! 9%positive = Some D /\ store s2 !! 9%positive = Some D.
Proof.
  apply (mul_associative 1%positive 2%positive 3%positive 8%positive 9%positive
           M0 M1 M0 identity_data identity_data s2m); try reflexivity; discriminate.
Defined.

Lemma transformed_product A B V w :
  length A = 16%nat -> length B = 16%nat -> length V = 3%nat ->
  el B 3 = 0 -> el B 7 = 0 -> el B 11 = 0 -> el B 15 = 1 ->
  transformed (product A B) V w = transformed A (transformed B V w) w.
Proof.
  intros LA LB LV. explode A LA; explode B LB; explode V LV.
  cbv [el]; simpl. intros -> -> -> ->.
  unfold transformed, product. simpl.
  list_eq ltac:(cbv [entry el]; simpl; ring).
Qed.

(** X6.  Transforming composes with multiplication when the right factor is
    affine (its entries 3, 7, 11 are 0 and entry 15 is 1): transforming a
    vector by [b] and then by [a] leaves the same three numbers in [out] as
    transforming it by the product [a * b]. *)
Theorem mulVec3_composes a b ab v tmp out w A B AB V T O s :
  store s !! a = Some A -> store s !! b = Some B -> store s !! ab = Some AB ->
  length A = 16%nat -> length B = 16%nat -> length AB = 16%nat ->
  store s !! v = Some V -> store s !! tmp = Some T -> store s !! out = Some O ->
  length V = 3%nat -> length T = 3%nat -> length O = 3%nat ->
  el B 3 = 0 -> el B 7 = 0 -> el B 11 = 0 -> el B 15 = 1 ->
  exists D s1 s2,
    (Matrix4.mul a b (Some ab) ;; Matrix4.mulVec3 ab v w (Some out)) s = Normal out s1 /\
    (Matrix4.mulVec3 b v w (Some tmp) ;; Matrix4.mulVec3 a tmp w (Some out)) s
      = Normal out s2 /\
    store s1 !! out = Some D /\ store s2 !! out = Some D.
Proof.
  intros HA HB HAB LA LB LAB HV HT HO LV LT LO B3 B7 B11 B15.
  assert (Habv : ab <> v) by (apply (diff_length s ab v AB V); [assumption..|lia]).
  assert (Habo : ab <> out) by (apply (diff_length s ab out AB O); [assumption..|lia]).
  assert (Hta : tmp <> a) by (apply (diff_length s tmp a T A); [assumption..|lia]).
  exists (transformed (product A B) V w).
  exists (set_store (set_store s ab (product A B)) out (transformed (product A B) V w)).
  exists (set_store (set_store s tmp (transformed B V w)) out
            (transformed A (transformed B V w) w)).
  split; [|split; [|split]].
  - rewrite (bind_normal _ _ _ _ _ (mul_spec a b ab A B AB s HA HB HAB LA LB LAB)).
    apply mulVec3_spec with (A := product A B) (V := V) (W := O);
      try assumption; try apply product_length.
    + apply lookup_set_store_eq.
    + rewrite lookup_set_store_ne by assumption. exact HV.
    + rewrite lookup_set_store_ne by assumption. exact HO.
  - rewrite (bind_normal _ _ _ _ _ (mulVec3_spec b v tmp w B V T s HB LB HV LV HT LT)).
    destruct (decide (tmp = out)) as [<-|Hne].
    + apply mulVec3_spec with (A := A) (V := transformed B V w) (W := transformed B V w);
        try assumption; try reflexivity; try apply lookup_set_store_eq.
      rewrite lookup_set_store_ne by assumption. exact HA.
    + apply mulVec3_spec with (A := A) (V := transformed B V w) (W := O);
        try assumption; try reflexivity; try apply lookup_set_store_eq.
      * rewrite lookup_set_store_ne by assumption. exact HA.
      * rewrite lookup_set_store_ne by assumption. exact HO.
  - apply lookup_set_store_eq.
  - rewrite transformed_product by assumption. apply lookup_set_store_eq.
Qed.

Lemma mulVec3_composes_witness :
  exists D s1 s2,
    (Matrix4.mul 1%positive 2%positive (Some 3%positive) ;;
     Matrix4.mulVec3 3%positive 4%positive 1 (Some 5%positive)) s0 = Normal 5%positive s1 /\
    (Matrix4.mulVec3 2%positive 4%positive 1 (Some 7%positive) ;;
     Matrix4.mulVec3 1%positive 7%positive 1 (Some 5%positive)) s0
      = Normal 5%positive s2 /\
    store s1 !! 5%positive = Some D /\ store s2 !! 5%positive = Some D.
Proof.
  apply (mulVec3_composes 1%positive 2%positive 3%positive 4%positive 7%positive 5%positive
           1 M0 M1 identity_data [0; 1; 0] [0; 0; 0] [0; 0; 0] s0); reflexivity.
Defined.

(** X7.  A matrix built by [translate (tx, ty, tz)] moves a vector by [w]
    times the translation: points ([w = 1]) are shifted by [(tx, ty, tz)],
    directions ([w = 0]) are left as they are. *)
Theorem translate_moves_points m v out tx ty tz w C V W s :
  store s !! m = Some C -> length C = 16%nat ->
  store s !! v = Some V -> length V = 3%nat ->
  store s !! out = Some W -> length W = 3%nat ->
  (Matrix4.prototype.translate m tx ty tz ;; Matrix4.mulVec3 m v w (Some out)) s =
  Normal out
    (set_store
       (set_store s m [1; 0; 0; 0; 0; 1; 0; 0; 0; 0; 1; 0; tx; ty; tz; 1])
       out [el V 0 + w * tx; el V 1 + w * ty; el V 2 + w * tz]).
Proof.
  intros HC LC HV LV HW LW.
  assert (Hmv : m <> v) by (apply (diff_length s m v C V); [assumption..|lia]).
  assert (Hmo : m <> out) by (apply (diff_length s m out C W); [assumption..|lia]).
  rewrite (bind_normal _ _ _ _ _ (translate_spec m tx ty tz C s HC LC)).
  erewrite mulVec3_spec with (V := V) (W := W);
    [ | apply lookup_set_store_eq | reflexivity
      | rewrite lookup_set_store_ne by assumption; exact HV | exact LV
      | rewrite lookup_set_store_ne by assumption; exact HW | exact LW ].
  do 2 f_equal. explode V LV. unfold transformed. simpl.
  list_eq ltac:(cbv [el]; simpl; ring).
Qed.

Lemma translate_moves_points_witness :
  (Matrix4.prototype.translate 1%positive 10 20 30 ;;
   Matrix4.mulVec3 1%positive 5%positive 1 (Some 5%positive)) s0 =
  Normal 5%positive
    (set_store
       (set_store s0 1%positive [1; 0; 0; 0; 0; 1; 0; 0; 0; 0; 1; 0; 10; 20; 30; 1])
       5%positive [el [0; 0; 0] 0 + 1 * 10; el [0; 0; 0] 1 + 1 * 20; el [0; 0; 0] 2 + 1 * 30]).
Proof.
  apply (translate_moves_points 1%positive 5%positive 5%positive 10 20 30 1
           M0 [0; 0; 0] [0; 0; 0] s0); reflexivity.
Defined.

(** X8.  A matrix built by [scale (sx, sy, sz)] multiplies the three
    coordinates of a vector by [sx], [sy], [sz], whatever [w] is. *)
Theorem scale_scales_vectors m v out sx sy sz w C V W s :
  store s !! m = Some C -> length C = 16%nat ->
  store s !! v = Some V -> length V = 3%nat ->
  store s !! out = Some W -> length W = 3%nat ->
  (Matrix4.prototype.scale m sx sy sz ;; Matrix4.mulVec3 m v w (Some out)) s =
  Normal out
    (set_store
       (set_store s m [sx; 0; 0; 0; 0; sy; 0; 0; 0; 0; sz; 0; 0; 0; 0; 1])
       out [sx * el V 0; sy * el V 1; sz * el V 2]).
Proof.
  intros HC LC HV LV HW LW.
  assert (Hmv : m <> v) by (apply (diff_length s m v C V); [assumption..|lia]).
  assert (Hmo : m <> out) by (apply (diff_length s m out C W); [assumption..|lia]).
  rewrite (bind_normal _ _ _ _ _ (scale_spec m sx sy sz C s HC LC)).
  erewrite mulVec3_spec with (V := V) (W := W);
    [ | apply lookup_set_store_eq | reflexivity
      | rewrite lookup_set_store_ne by assumption; exact HV | exact LV
      | rewrite lookup_set_store_ne by assumption; exact HW | exact LW ].
  do 2 f_equal. explode V LV. unfold transformed. simpl.
  list_eq ltac:(cbv [el]; simpl; ring).
Qed.

Lemma scale_scales_vectors_witness :
  (Matrix4.prototype.scale 1%positive 2 3 4 ;;
   Matrix4.mulVec3 1%positive 6%positive 1 (Some 5%positive)) s0 =
  Normal 5%positive
    (set_store
       (set_store s0 1%positive [2; 0; 0; 0; 0; 3; 0; 0; 0; 0; 4; 0; 0; 0; 0; 1])
       5%positive [2 * el [3 / 5; 0; 4 / 5] 0; 3 * el [3 / 5; 0; 4 / 5] 1;
                   4 * el [3 / 5; 0; 4 / 5] 2]).
Proof.
  apply (scale_scales_vectors 1%positive 6%positive 5%positive 2 3 4 1
           M0 [3 / 5; 0; 4 / 5] [0; 0; 0] s0); reflexivity.
Defined.

(** X9.  Translations compose by adding their offsets: the product of
    [translate (ax, ay, az)] and [translate (bx, by, bz)] is the matrix
    [translate (ax + bx, ay + by, az + bz)] builds. *)
Theorem translate_composes a b out ax ay az bx by' bz A B O s :
  store s !! a = Some A -> length A = 16%nat ->
  store s !! b = Some B -> length B = 16%nat ->
  store s !! out = Some O -> length O = 16%nat ->
  a <> b ->
  (Matrix4.prototype.translate a ax ay az ;;
   Matrix4.prototype.translate b bx by' bz ;;
   Matrix4.mul a b (Some out)) s =
  Normal out
    (set_store
       (set_store
          (set_store s a [1; 0; 0; 0; 0; 1; 0; 0; 0; 0; 1; 0; ax; ay; az; 1])
          b [1; 0; 0; 0; 0; 1; 0; 0; 0; 0; 1; 0; bx; by'; bz; 1])
       out [1; 0; 0; 0; 0; 1; 0; 0; 0; 0; 1; 0; ax + bx; ay + by'; az + bz; 1]).
Proof.
  intros HA LA HB LB HO LO Hab.
  rewrite (bind_normal _ _ _ _ _ (translate_spec a ax ay az A s HA LA)).
  set (s1 := set_store s a _).
  assert (HB1 : store s1 !! b = Some B)
    by (unfold s1; rewrite lookup_set_store_ne by assumption; exact HB).
  rewrite (bind_normal _ _ _ _ _ (translate_spec b bx by' bz B s1 HB1 LB)).
  set (s2 := set_store s1 b _).
  assert (HA2 : store s2 !! a = Some [1; 0; 0; 0; 0; 1; 0; 0; 0; 0; 1; 0; ax; ay; az; 1]).
  { unfold s2. rewrite lookup_set_store_ne by (apply not_eq_sym; assumption).
    apply lookup_set_store_eq. }
  assert (HB2 : store s2 !! b = Some [1; 0; 0; 0; 0; 1; 0; 0; 0; 0; 1; 0; bx; by'; bz; 1])
    by apply lookup_set_store_eq.
  assert (HO2 : exists O', store s2 !! out = Some O' /\ length O' = 16%nat).
  { destruct (decide (out = b)) as [->|Hob]; [eexists; split; [exact HB2|reflexivity]|].
    destruct (decide (out = a)) as [->|Hoa]; [eexists; split; [exact HA2|reflexivity]|].
    exists O. split; [|exact LO].
    unfold s2, s1. rewrite !lookup_set_store_ne by (apply not_eq_sym; assumption).
    exact HO. }
  destruct HO2 as (O' & HO' & LO').
  rewrite (mul_spec a b out _ _ O' s2 HA2 HB2 HO') by (reflexivity || assumption).
  do 2 f_equal. unfold product. simpl.
  list_eq ltac:(cbv [entry el]; simpl; ring).
Qed.

Lemma translate_composes_witness :
  (Matrix4.prototype.translate 1%positive 1 2 3 ;;
   Matrix4.prototype.translate 2%positive 10 20 30 ;;
   Matrix4.mul 1%positive 2%positive (Some 3%positive)) s0 =
  Normal 3%positive
    (set_store
       (set_store
          (set_store s0 1%positive [1; 0; 0; 0; 0; 1; 0; 0; 0; 0; 1; 0; 1; 2; 3; 1])
          2%positive [1; 0; 0; 0; 0; 1; 0; 0; 0; 0; 1; 0; 10; 20; 30; 1])
       3%positive [1; 0; 0; 0; 0; 1; 0; 0; 0; 0; 1; 0; 1 + 10; 2 + 20; 3 + 30; 1]).
Proof.
  apply (translate_composes 1%positive 2%positive 3%positive 1 2 3 10 20 30
           M0 M1 identity_data s0); try reflexivity; discriminate.
Defined.

(** X10.  Inverting a translation gives the opposite translation: after
    [translate (tx, ty, tz)] and [invert ()] the matrix is the one
    [translate (-tx, -ty, -tz)] builds. *)
Theorem invert_translate m tx ty tz C s :
  store s !! m = Some C -> length C = 16%nat ->
  (Matrix4.prototype.translate m tx ty tz ;; Matrix4.prototype.invert m) s =
  Normal m (set_store s m [1; 0; 0; 0; 0; 1; 0; 0; 0; 0; 1; 0; - tx; - ty; - tz; 1]).
Proof.
  intros HC LC.
  rewrite (bind_normal _ _ _ _ _ (translate_spec m tx ty tz C s HC LC)).
  unfold Matrix4.prototype.invert. js_run.
  unfold ret. do 2 f_equal. list_eq ltac:(field).
Qed.

Lemma invert_translate_witness :
  (Matrix4.prototype.translate 1%positive 10 20 30 ;; Matrix4.prototype.invert 1%positive) s0 =
  Normal 1%positive
    (set_store s0 1%positive [1; 0; 0; 0; 0; 1; 0; 0; 0; 0; 1; 0; - 10; - 20; - 30; 1]).
Proof.
  apply (invert_translate 1%positive 10 20 30 M0 s0); reflexivity.
Defined.

(** X11.  The inverse is two-sided: for a matrix whose determinant is not
    zero, multiplying the inverted clone by the matrix (inverse on the left)
    also leaves exactly the identity in the output matrix. *)
Theorem invert_left_inverse m out A C s :
  store s !! m = Some A -> length A = 16%nat ->
  store s !! out = Some C -> length C = 16%nat ->
  determinant A <> 0 ->
  exists D,
    (var c <- Matrix4.prototype.clone m;
     var inv <- Matrix4.prototype.invert c;
     Matrix4.mul inv m (Some out)) s =
    Normal out (set_store (set_store s (fresh (dom (store s))) D) out identity_data).
Proof.
  intros HA LA HC LC Hdet.
  rewrite (bind_normal _ _ _ _ _ (clone_spec m A s HA LA)).
  set (c := fresh (dom (store s))).
  assert (Hmc : m <> c) by (apply fresh_ne with (D := A); exact HA).
  assert (Hoc : out <> c) by (apply fresh_ne with (D := C); exact HC).
  destruct (invert_spec c A (set_store s c A) (lookup_set_store_eq s c A) LA)
    as (D & Hinv & LD & Hprod).
  rewrite (bind_normal _ _ _ _ _ Hinv), set_store_twice.
  exists D.
  rewrite mul_spec with (A := D) (B := A) (C := C); try assumption.
  - destruct (Hprod Hdet) as [_ ->]. reflexivity.
  - apply lookup_set_store_eq.
  - rewrite lookup_set_store_ne by (apply not_eq_sym; exact Hmc). exact HA.
  - rewrite lookup_set_store_ne by (apply not_eq_sym; exact Hoc). exact HC.
Qed.

Lemma invert_left_inverse_witness :
  exists D,
    (var c <- Matrix4.prototype.clone 2%positive;
     var inv <- Matrix4.prototype.invert c;
     Matrix4.mul inv 2%positive (Some 3%positive)) s0 =
    Normal 3%positive
      (set_store (set_store s0 (fresh (dom (store s0))) D) 3%positive identity_data).
Proof.
  apply (invert_left_inverse 2%positive 3%positive M1 identity_data s0);
    try reflexivity.
  cbv [determinant det3x3 entry el M1]. simpl. lra.
Defined.

(** X12.  The orthographic matrix maps the view box onto the cube
    [-1, 1]^3: the corner [(left, bottom, -near)] goes to [(-1, -1, -1)] and
    the corner [(right, top, -far)] to [(1, 1, 1)], provided the box has
    non-zero extent along each axis. *)
Theorem ortho_maps_box_to_cube m lo hi out left right bottom top near far C W s :
  store s !! m = Some C -> length C = 16%nat ->
  store s !! lo = Some [left; bottom; - near] ->
  store s !! hi = Some [right; top; - far] ->
  store s !! out = Some W -> length W = 3%nat ->
  right <> left -> top <> bottom -> far <> near ->
  exists O,
    (Matrix4.prototype.ortho m left right bottom top near far ;;
     Matrix4.mulVec3 m lo 1 (Some out)) s =
    Normal out (set_store (set_store s m O) out [-1; -1; -1]) /\
    (Matrix4.prototype.ortho m left right bottom top near far ;;
     Matrix4.mulVec3 m hi 1 (Some out)) s =
    Normal out (set_store (set_store s m O) out [1; 1; 1]).
Proof.
  intros HC LC Hlo Hhi HW LW Hx Hy Hz.
  assert (Hml : m <> lo) by (apply (diff_length s m lo C _ HC Hlo); simpl; lia).
  assert (Hmh : m <> hi) by (apply (diff_length s m hi C _ HC Hhi); simpl; lia).
  assert (Hmo : m <> out) by (apply (diff_length s m out C W); [assumption..|lia]).
  eexists. split.
  - rewrite (bind_normal _ _ _ _ _ (ortho_spec m left right bottom top near far C s HC LC)).
    erewrite mulVec3_spec with (V := [left; bottom; - near]) (W := W);
      [ | apply lookup_set_store_eq | reflexivity
        | rewrite lookup_set_store_ne by assumption; exact Hlo | reflexivity
        | rewrite lookup_set_store_ne by assumption; exact HW | exact LW ].
    do 2 f_equal. unfold transformed. simpl.
    list_eq ltac:(cbv [el]; simpl; field; lra).
  - rewrite (bind_normal _ _ _ _ _ (ortho_spec m left right bottom top near far C s HC LC)).
    erewrite mulVec3_spec with (V := [right; top; - far]) (W := W);
      [ | apply lookup_set_store_eq | reflexivity
        | rewrite lookup_set_store_ne by assumption; exact Hhi | reflexivity
        | rewrite lookup_set_store_ne by assumption; exact HW | exact LW ].
    do 2 f_equal. unfold transformed. simpl.
    list_eq ltac:(cbv [el]; simpl; field; lra).
Qed.

Lemma ortho_maps_box_to_cube_witness :
  exists O,
    (Matrix4.prototype.ortho 1%positive 0 2 0 2 1 3 ;;
     Matrix4.mulVec3 1%positive 4%positive 1 (Some 6%positive)) s3 =
    Normal 6%positive (set_store (set_store s3 1%positive O) 6%positive [-1; -1; -1]) /\
    (Matrix4.prototype.ortho 1%positive 0 2 0 2 1 3 ;;
     Matrix4.mulVec3 1%positive 5%positive 1 (Some 6%positive)) s3 =
    Normal 6%positive (set_store (set_store s3 1%positive O) 6%positive [1; 1; 1]).
Proof.
  apply (ortho_maps_box_to_cube 1%positive 4%positive 5%positive 6%positive
           0 2 0 2 1 3 M0 [0; 0; 0] s3); try reflexivity; lra.
Defined.

(** X13.  The frustum matrix sends the near-plane corners to the clip-space
    boundary: [(left, bottom, -znear)] goes to [(-znear, -znear, -znear)] and
    [(right, top, -znear)] to [(znear, znear, -znear)], and its last row
    (entries 3, 7, 11, 15) is [(0, 0, -1, 0)], so the clip-space [w] of a point
    is minus its eye-space [z]. *)
Theorem frustum_near_corners m lo hi out left right bottom top znear zfar C W s :
  store s !! m = Some C -> length C = 16%nat ->
  store s !! lo = Some [left; bottom; - znear] ->
  store s !! hi = Some [right; top; - znear] ->
  store s !! out = Some W -> length W = 3%nat ->
  right <> left -> top <> bottom -> zfar <> znear ->
  exists F,
    (Matrix4.prototype.frustum m left right bottom top znear zfar ;;
     Matrix4.mulVec3 m lo 1 (Some out)) s =
    Normal out (set_store (set_store s m F) out [- znear; - znear; - znear]) /\
    (Matrix4.prototype.frustum m left right bottom top znear zfar ;;
     Matrix4.mulVec3 m hi 1 (Some out)) s =
    Normal out (set_store (set_store s m F) out [znear; znear; - znear]) /\
    F !! 3%nat = Some 0 /\ F !! 7%nat = Some 0 /\
    F !! 11%nat = Some (-1) /\ F !! 15%nat = Some 0.
Proof.
  intros HC LC Hlo Hhi HW LW Hx Hy Hz.
  assert (Hml : m <> lo) by (apply (diff_length s m lo C _ HC Hlo); simpl; lia).
  assert (Hmh : m <> hi) by (apply (diff_length s m hi C _ HC Hhi); simpl; lia).
  assert (Hmo : m <> out) by (apply (diff_length s m out C W); [assumption..|lia]).
  eexists. split; [|split].
  - rewrite (bind_normal _ _ _ _ _
               (frustum_spec m left right bottom top znear zfar C s HC LC)).
    erewrite mulVec3_spec with (V := [left; bottom; - znear]) (W := W);
      [ | apply lookup_set_store_eq | reflexivity
        | rewrite lookup_set_store_ne by assumption; exact Hlo | reflexivity
        | rewrite lookup_set_store_ne by assumption; exact HW | exact LW ].
    do 2 f_equal. unfold transformed. simpl.
    list_eq ltac:(cbv [el]; simpl; field; lra).
  - rewrite (bind_normal _ _ _ _ _
               (frustum_spec m left right bottom top znear zfar C s HC LC)).
    erewrite mulVec3_spec with (V := [right; top; - znear]) (W := W);
      [ | apply lookup_set_store_eq | reflexivity
        | rewrite lookup_set_store_ne by assumption; exact Hhi | reflexivity
        | rewrite lookup_set_store_ne by assumption; exact HW | exact LW ].
    do 2 f_equal. unfold transformed. simpl.
    list_eq ltac:(cbv [el]; simpl; field; lra).
  - repeat split.
Qed.

Lemma frustum_near_corners_witness :
  exists F,
    (Matrix4.prototype.frustum 1%positive 0 2 0 2 1 3 ;;
     Matrix4.mulVec3 1%positive 4%positive 1 (Some 6%positive)) s3 =
    Normal 6%positive (set_store (set_store s3 1%positive F) 6%positive [- 1; - 1; - 1]) /\
    (Matrix4.prototype.frustum 1%positive 0 2 0 2 1 3 ;;
     Matrix4.mulVec3 1%positive 7%positive 1 (Some 6%positive)) s3 =
    Normal 6%positive (set_store (set_store s3 1%positive F) 6%positive [1; 1; - 1]) /\
    F !! 3%nat = Some 0 /\ F !! 7%nat = Some 0 /\
    F !! 11%nat = Some (-1) /\ F !! 15%nat = Some 0.
Proof.
  apply (frustum_near_corners 1%positive 4%positive 7%positive 6%positive
           0 2 0 2 1 3 M0 [0; 0; 0] s3); try reflexivity; lra.
Defined.

(** X14.  [perspective] builds a symmetric frustum: with a non-zero near
    distance, aspect ratio and [tan] of the half angle (fovy in degrees),
    entry 5 is [1 / tan (fovy * PI / 360)], entry 0 is that divided by the
    aspect ratio, and the off-centre entries 8 and 9 are 0; entries 10, 11, 14
    are those of the frustum. *)
Theorem perspective_entries m fovy aspect znear zfar C s :
  store s !! m = Some C -> length C = 16%nat ->
  znear <> 0 -> aspect <> 0 -> tan (fovy * PI / 360) <> 0 ->
  exists F,
    Matrix4.prototype.perspective m fovy aspect znear zfar s =
    Normal m (set_store s m F) /\
    F !! 0%nat = Some (1 / (aspect * tan (fovy * PI / 360))) /\
    F !! 5%nat = Some (1 / tan (fovy * PI / 360)) /\
    F !! 8%nat = Some 0 /\ F !! 9%nat = Some 0 /\
    F !! 10%nat = Some ((- zfar - znear) / (zfar - znear)) /\
    F !! 11%nat = Some (-1) /\
    F !! 14%nat = Some (- (2 * znear) * zfar / (zfar - znear)).
Proof.
  intros HC LC Hn Ha Ht.
  set (tn := tan (fovy * PI / 360)) in *.
  exists [1 / (aspect * tn); 0; 0; 0; 0; 1 / tn; 0; 0;
          0; 0; (- zfar - znear) / (zfar - znear); -1;
          0; 0; - (2 * znear) * zfar / (zfar - znear); 0].
  split; [|repeat split].
  unfold Matrix4.prototype.perspective. fold tn.
  rewrite frustum_spec with (C := C) by assumption.
  assert (Hnt : znear * tn <> 0)
    by (apply Rmult_integral_contrapositive_currified; assumption).
  assert (Hnta : znear * tn * aspect <> 0)
    by (apply Rmult_integral_contrapositive_currified; assumption).
  assert (Hy : znear * tn - - (znear * tn) <> 0) by (intros E; apply Hnt; lra).
  assert (Hx : znear * tn * aspect - - (znear * tn * aspect) <> 0)
    by (intros E; apply Hnta; lra).
  do 2 f_equal.
  list_eq ltac:(first [reflexivity | field; repeat split; assumption]).
Qed.

Lemma perspective_entries_witness :
  exists F,
    Matrix4.prototype.perspective 1%positive 90 2 1 100 s3 =
    Normal 1%positive (set_store s3 1%positive F) /\
    F !! 0%nat = Some (1 / (2 * tan (90 * PI / 360))) /\
    F !! 5%nat = Some (1 / tan (90 * PI / 360)) /\
    F !! 8%nat = Some 0 /\ F !! 9%nat = Some 0 /\
    F !! 10%nat = Some ((- 100 - 1) / (100 - 1)) /\
    F !! 11%nat = Some (-1) /\
    F !! 14%nat = Some (- (2 * 1) * 100 / (100 - 1)).
Proof.
  apply (perspective_entries 1%positive 90 2 1 100 M0 s3); try reflexivity; try lra.
  replace (90 * PI / 360) with (PI / 4) by field.
  rewrite tan_PI4. lra.
Defined.

(** X15.  A rotation leaves its axis where it is: for a unit-length axis,
    the matrix built by [rotate (angle, axis)] maps the axis vector to
    itself, for every angle and every [w]. *)
Theorem rotate_fixes_axis m axis out angle w C V W s :
  store s !! m = Some C -> length C = 16%nat ->
  store s !! axis = Some V -> length V = 3%nat ->
  store s !! out = Some W -> length W = 3%nat ->
  el V 0 * el V 0 + el V 1 * el V 1 + el V 2 * el V 2 = 1 ->
  exists Rm,
    (Matrix4.prototype.rotate m angle axis ;; Matrix4.mulVec3 m axis w (Some out)) s =
    Normal out (set_store (set_store s m Rm) out V).
Proof.
  intros HC LC HV LV HW LW Hunit.
  assert (Hmv : m <> axis) by (apply (diff_length s m axis C V); [assumption..|lia]).
  assert (Hmo : m <> out) by (apply (diff_length s m out C W); [assumption..|lia]).
  eexists.
  rewrite (bind_normal _ _ _ _ _ (rotate_spec m angle axis C V s HC LC HV LV)).
  erewrite mulVec3_spec with (V := V) (W := W);
    [ | apply lookup_set_store_eq | reflexivity
      | rewrite lookup_set_store_ne by assumption; exact HV | exact LV
      | rewrite lookup_set_store_ne by assumption; exact HW | exact LW ].
  do 2 f_equal. explode V LV. cbv [el] in Hunit; simpl in Hunit.
  unfold transformed. simpl. cbv [el]; simpl.
  set (c := cos angle). set (sn := sin angle).
  apply (f_equal2 cons); [|apply (f_equal2 cons); [|apply (f_equal2 cons); [|reflexivity]]].
  - transitivity ((1 - c) * r * (r * r + r0 * r0 + r1 * r1) + c * r); [ring|].
    rewrite Hunit. ring.
  - transitivity ((1 - c) * r0 * (r * r + r0 * r0 + r1 * r1) + c * r0); [ring|].
    rewrite Hunit. ring.
  - transitivity ((1 - c) * r1 * (r * r + r0 * r0 + r1 * r1) + c * r1); [ring|].
    rewrite Hunit. ring.
Qed.

Lemma rotate_fixes_axis_witness :
  exists Rm,
    (Matrix4.prototype.rotate 1%positive 1 11%positive ;;
     Matrix4.mulVec3 1%positive 11%positive 1 (Some 6%positive)) s3 =
    Normal 6%positive (set_store (set_store s3 1%positive Rm) 6%positive [3 / 5; 0; 4 / 5]).
Proof.
  apply (rotate_fixes_axis 1%positive 11%positive 6%positive 1 1
           M0 [3 / 5; 0; 4 / 5] [0; 0; 0] s3); try reflexivity.
  cbv [el]; simpl. lra.
Defined.

(** X16.  Rotating by the angle 0 builds the identity matrix, whatever the
    axis. *)
Theorem rotate_zero_is_identity m axis C V s :
  store s !! m = Some C -> length C = 16%nat ->
  store s !! axis = Some V -> length V = 3%nat ->
  Matrix4.prototype.rotate m 0 axis s = Normal m (set_store s m identity_data).
Proof.
  intros HC LC HV LV.
  rewrite (rotate_spec m 0 axis C V s HC LC HV LV).
  rewrite cos_0, sin_0. do 2 f_equal. unfold identity_data.
  list_eq ltac:(ring).
Qed.

Lemma rotate_zero_is_identity_witness :
  Matrix4.prototype.rotate 1%positive 0 12%positive s3 =
  Normal 1%positive (set_store s3 1%positive identity_data).
Proof.
  apply (rotate_zero_is_identity 1%positive 12%positive M0 [2; 3; 4] s3); reflexivity.
Defined.

(** X17.  With the identity quaternion [(0, 0, 0, 1)], [setTRS (t, q, s)]
    builds the matrix with [s] on the diagonal and [t] in the translation
    entries: a scale followed by a translation, with no rotation. *)
Theorem setTRS_identity_rotation m t q sc C T S s :
  store s !! m = Some C -> length C = 16%nat ->
  store s !! t = Some T -> length T = 3%nat ->
  store s !! q = Some [0; 0; 0; 1] ->
  store s !! sc = Some S -> length S = 3%nat ->
  Matrix4.prototype.setTRS m t q sc s =
  Normal m
    (set_store s m
       [el S 0; 0; 0; 0;  0; el S 1; 0; 0;  0; 0; el S 2; 0;  el T 0; el T 1; el T 2; 1]).
Proof.
  intros HC LC HT LT HQ HS LS.
  rewrite (setTRS_spec m t q sc C T [0; 0; 0; 1] S s HC LC HT LT HQ eq_refl HS LS).
  do 2 f_equal. cbv [el]; simpl. list_eq ltac:(ring).
Qed.

Lemma setTRS_identity_rotation_witness :
  Matrix4.prototype.setTRS 1%positive 13%positive 10%positive 12%positive s3 =
  Normal 1%positive
    (set_store s3 1%positive
       [el [2; 3; 4] 0; 0; 0; 0;  0; el [2; 3; 4] 1; 0; 0;  0; 0; el [2; 3; 4] 2; 0;
        el [10; 20; 30] 0; el [10; 20; 30] 1; el [10; 20; 30] 2; 1]).
Proof.
  apply (setTRS_identity_rotation 1%positive 13%positive 10%positive 12%positive
           M0 [10; 20; 30] [2; 3; 4] s3); reflexivity.
Defined.

(** X18.  [getTranslation] gives back the translation [setTRS] was given,
    exactly, whatever the rotation and the scale are. *)
Theorem setTRS_getTranslation m t q sc out C T Q S W s :
  store s !! m = Some C -> length C = 16%nat ->
  store s !! t = Some T -> length T = 3%nat ->
  store s !! q = Some Q -> length Q = 4%nat ->
  store s !! sc = Some S -> length S = 3%nat ->
  store s !! out = Some W -> length W = 3%nat ->
  exists D,
    (Matrix4.prototype.setTRS m t q sc ;;
     Matrix4.prototype.getTranslation m (Some out)) s =
    Normal out (set_store (set_store s m D) out T).
Proof.
  intros HC LC HT LT HQ LQ HS LS HW LW.
  assert (Hmo : m <> out) by (apply (diff_length s m out C W); [assumption..|lia]).
  eexists.
  rewrite (bind_normal _ _ _ _ _ (setTRS_spec m t q sc C T Q S s HC LC HT LT HQ LQ HS LS)).
  erewrite getTranslation_spec with (W := W);
    [ | apply lookup_set_store_eq | reflexivity
      | rewrite lookup_set_store_ne by assumption; exact HW | exact LW ].
  explode T LT. reflexivity.
Qed.

Lemma setTRS_getTranslation_witness :
  exists D,
    (Matrix4.prototype.setTRS 1%positive 13%positive 10%positive 12%positive ;;
     Matrix4.prototype.getTranslation 1%positive (Some 6%positive)) s3 =
    Normal 6%positive (set_store (set_store s3 1%positive D) 6%positive [10; 20; 30]).
Proof.
  apply (setTRS_getTranslation 1%positive 13%positive 10%positive 12%positive 6%positive
           M0 [10; 20; 30] [0; 0; 0; 1] [2; 3; 4] [0; 0; 0] s3); reflexivity.
Defined.

(** X19.  For a unit quaternion, the three basis columns [setTRS] writes have
    the lengths of the scale: the squared length of column [i] of the
    rotation block is the square of [s[i]]. *)
Theorem setTRS_column_lengths m t q sc C T Q S s :
  store s !! m = Some C -> length C = 16%nat ->
  store s !! t = Some T -> length T = 3%nat ->
  store s !! q = Some Q -> length Q = 4%nat ->
  store s !! sc = Some S -> length S = 3%nat ->
  el Q 0 * el Q 0 + el Q 1 * el Q 1 + el Q 2 * el Q 2 + el Q 3 * el Q 3 = 1 ->
  exists D,
    Matrix4.prototype.setTRS m t q sc s = Normal m (set_store s m D) /\
    el D 0 * el D 0 + el D 1 * el D 1 + el D 2 * el D 2 = el S 0 * el S 0 /\
    el D 4 * el D 4 + el D 5 * el D 5 + el D 6 * el D 6 = el S 1 * el S 1 /\
    el D 8 * el D 8 + el D 9 * el D 9 + el D 10 * el D 10 = el S 2 * el S 2.
Proof.
  intros HC LC HT LT HQ LQ HS LS Hunit.
  eexists. split.
  - apply (setTRS_spec m t q sc C T Q S s HC LC HT LT HQ LQ HS LS).
  - explode Q LQ. cbv [el] in *; simpl in *.
    set (n := r * r + r0 * r0 + r1 * r1 + r2 * r2) in *.
    set (s0 := default 0 (S !! 0%nat)).
    set (s1 := default 0 (S !! 1%nat)).
    set (s2 := default 0 (S !! 2%nat)).
    split; [|split].
    + transitivity (s0 * s0 * (1 + 4 * (r0 * r0 + r1 * r1) * (n - 1)));
        [unfold n; ring | rewrite Hunit; ring].
    + transitivity (s1 * s1 * (1 + 4 * (r * r + r1 * r1) * (n - 1)));
        [unfold n; ring | rewrite Hunit; ring].
    + transitivity (s2 * s2 * (1 + 4 * (r * r + r0 * r0) * (n - 1)));
        [unfold n; ring | rewrite Hunit; ring].
Qed.

Lemma setTRS_column_lengths_witness :
  exists D,
    Matrix4.prototype.setTRS 1%positive 13%positive 14%positive 12%positive s3
      = Normal 1%positive (set_store s3 1%positive D) /\
    el D 0 * el D 0 + el D 1 * el D 1 + el D 2 * el D 2 = el [2; 3; 4] 0 * el [2; 3; 4] 0 /\
    el D 4 * el D 4 + el D 5 * el D 5 + el D 6 * el D 6 = el [2; 3; 4] 1 * el [2; 3; 4] 1 /\
    el D 8 * el D 8 + el D 9 * el D 9 + el D 10 * el D 10 = el [2; 3; 4] 2 * el [2; 3; 4] 2.
Proof.
  apply (setTRS_column_lengths 1%positive 13%positive 14%positive 12%positive
           M0 [10; 20; 30] [3 / 5; 0; 0; 4 / 5] [2; 3; 4] s3); try reflexivity.
  cbv [el]; simpl. lra.
Defined.


(** X21.  [clone] returns a new object: its location is not in use before
    the call, it holds the receiver's sixteen entries afterwards, and no
    existing typed array (the receiver's included) is changed. *)
Theorem clone_is_a_new_object this A s :
  store s !! this = Some A -> length A = 16%nat ->
  exists c,
    Matrix4.prototype.clone this s = Normal c (set_store s c A) /\
    store s !! c = None /\ c <> this.
Proof.
  intros HA LA. exists (fresh (dom (store s))). split; [|split].
  - apply clone_spec; assumption.
  - apply fresh_lookup.
  - apply not_eq_sym. apply fresh_ne with (D := A). exact HA.
Qed.

Lemma clone_is_a_new_object_witness :
  exists c,
    Matrix4.prototype.clone 1%positive s0 = Normal c (set_store s0 c M0) /\
    store s0 !! c = None /\ c <> 1%positive.
Proof.
  apply (clone_is_a_new_object 1%positive M0 s0); reflexivity.
Defined.

(** X22.  [a.copy (b)] returns [a] and makes the storage of [a] hold the
    sixteen entries of [b], changing nothing else; copying a matrix onto
    itself leaves the whole state as it was. *)
Theorem copy_overwrites_receiver this rhs A C s :
  store s !! this = Some C -> store s !! rhs = Some A ->
  length C = 16%nat -> length A = 16%nat ->
  Matrix4.prototype.copy this rhs s = Normal this (set_store s this A) /\
  Matrix4.prototype.copy rhs rhs s = Normal rhs s.
Proof.
  intros HC HA LC LA. split.
  - apply copy_spec with (C := C); assumption.
  - rewrite copy_spec with (A := A) (C := A) by assumption.
    rewrite set_store_same by exact HA. reflexivity.
Qed.

Lemma copy_overwrites_receiver_witness :
  Matrix4.prototype.copy 1%positive 2%positive s0
    = Normal 1%positive (set_store s0 1%positive M1) /\
  Matrix4.prototype.copy 2%positive 2%positive s0 = Normal 2%positive s0.
Proof.
  apply (copy_overwrites_receiver 1%positive 2%positive M1 M0 s0); reflexivity.
Defined.



(** X24.  Rotating back undoes a rotation: for a unit-length axis, the
    product of the matrices built by [rotate (angle, axis)] and
    [rotate (-angle, axis)] is the identity. *)
Theorem rotate_back_is_identity a b out axis angle A B O V s :
  store s !! a = Some A -> length A = 16%nat ->
  store s !! b = Some B -> length B = 16%nat ->
  store s !! out = Some O -> length O = 16%nat ->
  store s !! axis = Some V -> length V = 3%nat ->
  a <> b ->
  el V 0 * el V 0 + el V 1 * el V 1 + el V 2 * el V 2 = 1 ->
  exists Ra Rb,
    (Matrix4.prototype.rotate a angle axis ;;
     Matrix4.prototype.rotate b (- angle) axis ;;
     Matrix4.mul a b (Some out)) s =
    Normal out (set_store (set_store (set_store s a Ra) b Rb) out identity_data).
Proof.
  intros HA LA HB LB HO LO HV LV Hab Hunit.
  assert (Haa : a <> axis) by (apply (diff_length s a axis A V); [assumption..|lia]).
  assert (Hba : b <> axis) by (apply (diff_length s b axis B V); [assumption..|lia]).
  eexists. eexists.
  rewrite (bind_normal _ _ _ _ _ (rotate_spec a angle axis A V s HA LA HV LV)).
  set (s1 := set_store s a _).
  assert (HB1 : store s1 !! b = Some B)
    by (unfold s1; rewrite lookup_set_store_ne by assumption; exact HB).
  assert (HV1 : store s1 !! axis = Some V)
    by (unfold s1; rewrite lookup_set_store_ne by assumption; exact HV).
  rewrite (bind_normal _ _ _ _ _ (rotate_spec b (- angle) axis B V s1 HB1 LB HV1 LV)).
  set (s2 := set_store s1 b _).
  assert (HA2 : exists Ra, store s2 !! a = Some Ra /\ store s1 !! a = Some Ra).
  { eexists. split; [|apply lookup_set_store_eq].
    unfold s2. rewrite lookup_set_store_ne by (apply not_eq_sym; assumption).
    apply lookup_set_store_eq. }
  destruct HA2 as (Ra & HA2 & HA1).
  pose proof (lookup_set_store_eq s1 b) as HB2. 
  unfold s1 in HA1. rewrite lookup_set_store_eq in HA1. injection HA1 as <-.
  assert (HO2 : exists O', store s2 !! out = Some O' /\ length O' = 16%nat).
  { destruct (decide (out = b)) as [->|Hob];
      [eexists; split; [apply lookup_set_store_eq|reflexivity]|].
    destruct (decide (out = a)) as [->|Hoa]; [eexists; split; [exact HA2|reflexivity]|].
    exists O. split; [|exact LO].
    unfold s2, s1. rewrite !lookup_set_store_ne by (apply not_eq_sym; assumption).
    exact HO. }
  destruct HO2 as (O' & HO' & LO').
  rewrite (mul_spec a b out _ _ O' s2 HA2 (lookup_set_store_eq s1 b _) HO')
    by (reflexivity || assumption).
  do 2 f_equal.
  rewrite cos_neg, sin_neg.
  pose proof (sin2_cos2 angle) as Hcs. unfold Rsqr in Hcs.
  explode V LV. cbv [el] in *; simpl in *.
  set (c := cos angle) in *. set (sn := sin angle) in *.
  unfold product, identity_data. simpl.
  list_eq ltac:(cbv [entry el]; simpl; nsatz).
Qed.

Lemma rotate_back_is_identity_witness :
  exists Ra Rb,
    (Matrix4.prototype.rotate 1%positive 1 11%positive ;;
     Matrix4.prototype.rotate 2%positive (- 1) 11%positive ;;
     Matrix4.mul 1%positive 2%positive (Some 1%positive)) s4 =
    Normal 1%positive
      (set_store (set_store (set_store s4 1%positive Ra) 2%positive Rb)
         1%positive identity_data).
Proof.
  apply (rotate_back_is_identity 1%positive 2%positive 1%positive 11%positive 1
           M0 M1 M0 [3 / 5; 0; 4 / 5] s4); try reflexivity; try discriminate.
  cbv [el]; simpl. lra.
Defined.

Lemma normalize_unit v : 0 < Vector3.length v -> dot (Vector3.normalize v) (Vector3.normalize v) = 1.
Proof.
  destruct v as [a b c]. unfold dot, Vector3.normalize, Vector3.length; simpl.
  set (q := a * a + b * b + c * c). intros HL.
  assert (Hq : 0 <= q) by (unfold q; nra).
  pose proof (sqrt_sqrt q Hq) as HLL.
  set (L := sqrt q) in *.
  transitivity (q / (L * L)); [unfold q; field; lra|].
  rewrite HLL. field. nra.
Qed.

Lemma normalize_cross_orthogonal a b :
  dot (Vector3.normalize (Vector3.cross a b)) b = 0.
Proof.
  destruct a as [a1 a2 a3], b as [b1 b2 b3].
  unfold dot, Vector3.normalize; simpl.
  set (L := Vector3.length _). unfold Rdiv. ring.
Qed.

Lemma cross_zero_r u : Vector3.cross u (Vector3.mk 0 0 0) = Vector3.mk 0 0 0.
Proof. unfold Vector3.cross; simpl. f_equal; ring. Qed.

Lemma cross_normalized_nonzero u d :
  Vector3.cross u d <> Vector3.mk 0 0 0 ->
  Vector3.cross (Vector3.normalize u) (Vector3.normalize d) <> Vector3.mk 0 0 0.
Proof.
  intros Hnp.
  assert (Hu : 0 < Vector3.length u).
  { apply length_pos. intros E. apply Hnp. rewrite E. apply cross_zero_l. }
  assert (Hd : 0 < Vector3.length d).
  { apply length_pos. intros E. apply Hnp. rewrite E. apply cross_zero_r. }
  destruct u as [u1 u2 u3], d as [d1 d2 d3].
  set (Lu := Vector3.length (Vector3.mk u1 u2 u3)) in *.
  set (Ld := Vector3.length (Vector3.mk d1 d2 d3)) in *.
  unfold Vector3.cross, Vector3.normalize in *; simpl in *. fold Lu. fold Ld.
  intros E. injection E as E1 E2 E3. apply Hnp.
  assert (Hk : Lu * Ld <> 0) by (apply Rmult_integral_contrapositive_currified; lra).
  f_equal.
  - replace (u2 * d3 - u3 * d2) with ((u2 / Lu * (d3 / Ld) - u3 / Lu * (d2 / Ld)) * (Lu * Ld))
      by (field; lra).
    rewrite E1. ring.
  - replace (u3 * d1 - u1 * d3) with ((u3 / Lu * (d1 / Ld) - u1 / Lu * (d3 / Ld)) * (Lu * Ld))
      by (field; lra).
    rewrite E2. ring.
  - replace (u1 * d2 - u2 * d1) with ((u1 / Lu * (d2 / Ld) - u2 / Lu * (d1 / Ld)) * (Lu * Ld))
      by (field; lra).
    rewrite E3. ring.
Qed.

(** X25.  For [up] not parallel to [position - target], the three basis
    columns [lookAt] writes are orthonormal: each has length 1 and any two of
    them are perpendicular. *)
Theorem lookAt_basis_orthonormal this position target up C P T U s :
  store s !! this = Some C -> length C = 16%nat ->
  store s !! position = Some P -> length P = 3%nat ->
  store s !! target = Some T -> length T = 3%nat ->
  store s !! up = Some U -> length U = 3%nat ->
  Vector3.cross (vec_of U) (Vector3.subtract (vec_of P) (vec_of T)) <> Vector3.mk 0 0 0 ->
  exists x y z,
    Matrix4.prototype.lookAt this position target up s =
    Normal this
      (set_store s this
         [Vector3.x x; Vector3.y x; Vector3.z x; 0;
          Vector3.x y; Vector3.y y; Vector3.z y; 0;
          Vector3.x z; Vector3.y z; Vector3.z z; 0;
          el P 0; el P 1; el P 2; 1]) /\
    dot x x = 1 /\ dot y y = 1 /\ dot z z = 1 /\
    dot x y = 0 /\ dot y z = 0 /\ dot x z = 0.
Proof.
  intros HC LC HP LP HT LT HU LU Hnp.
  set (d := Vector3.subtract (vec_of P) (vec_of T)) in *.
  set (z := Vector3.normalize d).
  set (x := Vector3.normalize (Vector3.cross (Vector3.normalize (vec_of U)) z)).
  exists x, (Vector3.cross z x), z.
  split; [apply (lookAt_spec this position target up C P T U s); assumption|].
  assert (Hd : 0 < Vector3.length d).
  { apply length_pos. intros E. apply Hnp. rewrite E. apply cross_zero_r. }
  assert (Hc : 0 < Vector3.length (Vector3.cross (Vector3.normalize (vec_of U)) z)).
  { apply length_pos. apply cross_normalized_nonzero. exact Hnp. }
  pose proof (normalize_unit d Hd) as Hzz. fold z in Hzz.
  pose proof (normalize_unit _ Hc) as Hxx. fold x in Hxx.
  pose proof (normalize_cross_orthogonal (Vector3.normalize (vec_of U)) z) as Hxz.
  fold x in Hxz.
  clearbody x z. destruct x as [x1 x2 x3], z as [z1 z2 z3].
  unfold dot, Vector3.cross in *; simpl in *.
  repeat split; try assumption; nsatz.
Qed.

Lemma lookAt_basis_orthonormal_witness :
  exists x y z,
    Matrix4.prototype.lookAt 1%positive 6%positive 7%positive 4%positive s0 =
    Normal 1%positive
      (set_store s0 1%positive
         [Vector3.x x; Vector3.y x; Vector3.z x; 0;
          Vector3.x y; Vector3.y y; Vector3.z y; 0;
          Vector3.x z; Vector3.y z; Vector3.z z; 0;
          el [3 / 5; 0; 4 / 5] 0; el [3 / 5; 0; 4 / 5] 1; el [3 / 5; 0; 4 / 5] 2; 1]) /\
    dot x x = 1 /\ dot y y = 1 /\ dot z z = 1 /\
    dot x y = 0 /\ dot y z = 0 /\ dot x z = 0.
Proof.
  apply (lookAt_basis_orthonormal 1%positive 6%positive 7%positive 4%positive
           M0 [3 / 5; 0; 4 / 5] [0; 0; 0] [0; 1; 0] s0); try reflexivity.
  unfold Vector3.cross, Vector3.subtract, vec_of, el; simpl.
  intros E. injection E as E1 E2 E3. lra.
Defined.

Lemma getX_spec this x A W s :
  store s !! this = Some A -> length A = 16%nat ->
  store s !! x = Some W -> length W = 3%nat ->
  Matrix4.prototype.getX this (Some x) s =
  Normal x (set_store s x [el A 0; el A 1; el A 2]).
Proof.
  intros HA LA HW LW.
  assert (Hne : x <> this) by (intros ->; rewrite HA in HW; injection HW as ->; lia).
  explode A LA; explode W LW.
  unfold Matrix4.prototype.getX; js_run; reflexivity.
Qed.

Lemma getY_spec this y A W s :
  store s !! this = Some A -> length A = 16%nat ->
  store s !! y = Some W -> length W = 3%nat ->
  Matrix4.prototype.getY this (Some y) s =
  Normal y (set_store s y [el A 4; el A 5; el A 6]).
Proof.
  intros HA LA HW LW.
  assert (Hne : y <> this) by (intros ->; rewrite HA in HW; injection HW as ->; lia).
  explode A LA; explode W LW.
  unfold Matrix4.prototype.getY; js_run; reflexivity.
Qed.

Lemma getZ_spec this z A W s :
  store s !! this = Some A -> length A = 16%nat ->
  store s !! z = Some W -> length W = 3%nat ->
  Matrix4.prototype.getZ this (Some z) s =
  Normal z (set_store s z [el A 8; el A 9; el A 10]).
Proof.
  intros HA LA HW LW.
  assert (Hne : z <> this) by (intros ->; rewrite HA in HW; injection HW as ->; lia).
  explode A LA; explode W LW.
  unfold Matrix4.prototype.getZ; js_run; reflexivity.
Qed.

Lemma vector_after_write (s : state) l l' (W D : list R) :
  store s !! l = Some W -> length W = 3%nat -> length D = 3%nat ->
  exists W', store (set_store s l' D) !! l = Some W' /\ length W' = 3%nat.
Proof.
  intros HW LW LD. destruct (decide (l' = l)) as [->|Hne].
  - exists D. split; [apply lookup_set_store_eq|exact LD].
  - exists W. split; [|exact LW]. rewrite lookup_set_store_ne by exact Hne. exact HW.
Qed.

(** X26.  The axes of a scale matrix are the scaled unit vectors: after
    [scale (sx, sy, sz)], [getX], [getY] and [getZ] write [(sx, 0, 0)],
    [(0, sy, 0)] and [(0, 0, sz)] into the vectors they are given and return
    them. *)
Theorem scale_axes m ox oy oz sx sy sz C Wx Wy Wz s :
  store s !! m = Some C -> length C = 16%nat ->
  store s !! ox = Some Wx -> length Wx = 3%nat ->
  store s !! oy = Some Wy -> length Wy = 3%nat ->
  store s !! oz = Some Wz -> length Wz = 3%nat ->
  (Matrix4.prototype.scale m sx sy sz ;;
   Matrix4.prototype.getX m (Some ox) ;;
   Matrix4.prototype.getY m (Some oy) ;;
   Matrix4.prototype.getZ m (Some oz)) s =
  Normal oz
    (set_store
       (set_store
          (set_store
             (set_store s m [sx; 0; 0; 0; 0; sy; 0; 0; 0; 0; sz; 0; 0; 0; 0; 1])
             ox [sx; 0; 0])
          oy [0; sy; 0])
       oz [0; 0; sz]).
Proof.
  intros HC LC Hx Lx Hy Ly Hz Lz.
  assert (Hmx : m <> ox) by (apply (diff_length s m ox C Wx); [assumption..|lia]).
  assert (Hmy : m <> oy) by (apply (diff_length s m oy C Wy); [assumption..|lia]).
  assert (Hmz : m <> oz) by (apply (diff_length s m oz C Wz); [assumption..|lia]).
  rewrite (bind_normal _ _ _ _ _ (scale_spec m sx sy sz C s HC LC)).
  set (S := [sx; 0; 0; 0; 0; sy; 0; 0; 0; 0; sz; 0; 0; 0; 0; 1]).
  set (s1 := set_store s m S).
  assert (Hm1 : store s1 !! m = Some S) by apply lookup_set_store_eq.
  assert (Hx1 : store s1 !! ox = Some Wx)
    by (unfold s1; rewrite lookup_set_store_ne by assumption; exact Hx).
  assert (Hy1 : store s1 !! oy = Some Wy)
    by (unfold s1; rewrite lookup_set_store_ne by assumption; exact Hy).
  assert (Hz1 : store s1 !! oz = Some Wz)
    by (unfold s1; rewrite lookup_set_store_ne by assumption; exact Hz).
  rewrite (bind_normal _ _ _ _ _ (getX_spec m ox S Wx s1 Hm1 eq_refl Hx1 Lx)).
  set (s2 := set_store s1 ox _).
  assert (Hm2 : store s2 !! m = Some S)
    by (unfold s2; rewrite lookup_set_store_ne by (apply not_eq_sym; assumption); exact Hm1).
  destruct (vector_after_write s1 oy ox Wy [el S 0; el S 1; el S 2] Hy1 Ly eq_refl)
    as (Wy' & Hy2 & Ly2).
  destruct (vector_after_write s1 oz ox Wz [el S 0; el S 1; el S 2] Hz1 Lz eq_refl)
    as (Wz' & Hz2 & Lz2).
  fold s2 in Hy2, Hz2.
  rewrite (bind_normal _ _ _ _ _ (getY_spec m oy S Wy' s2 Hm2 eq_refl Hy2 Ly2)).
  set (s3' := set_store s2 oy _).
  assert (Hm3 : store s3' !! m = Some S)
    by (unfold s3'; rewrite lookup_set_store_ne by (apply not_eq_sym; assumption); exact Hm2).
  destruct (vector_after_write s2 oz oy Wz' [el S 4; el S 5; el S 6] Hz2 Lz2 eq_refl)
    as (Wz'' & Hz3 & Lz3).
  fold s3' in Hz3.
  rewrite (getZ_spec m oz S Wz'' s3' Hm3 eq_refl Hz3 Lz3).
  reflexivity.
Qed.

Lemma scale_axes_witness :
  (Matrix4.prototype.scale 1%positive 2 3 4 ;;
   Matrix4.prototype.getX 1%positive (Some 4%positive) ;;
   Matrix4.prototype.getY 1%positive (Some 5%positive) ;;
   Matrix4.prototype.getZ 1%positive (Some 6%positive)) s0 =
  Normal 6%positive
    (set_store
       (set_store
          (set_store
             (set_store s0 1%positive [2; 0; 0; 0; 0; 3; 0; 0; 0; 0; 4; 0; 0; 0; 0; 1])
             4%positive [2; 0; 0])
          5%positive [0; 3; 0])
       6%positive [0; 0; 4]).
Proof.
  apply (scale_axes 1%positive 4%positive 5%positive 6%positive 2 3 4
           M0 [0; 1; 0] [0; 0; 0] [3 / 5; 0; 4 / 5] s0); reflexivity.
Defined.

